(** * GWF frame reader/writer (gwpy/timeseries/io/gwf/framecpp.py)

    A shallow embedding of the frameCPP backend of GWpy's GWF reader and
    writer, and the properties of it that the specification states.

    Modelling conventions.
    - GPS times, sample spacings and every other Python float or
      [LIGOTimeGPS] value are exact rationals ([Q]); [==] is equality of
      times.  Rounding of binary floating point is outside the model:
      where the source divides doubles the model has the exact quotient.
    - A Python exception is a result: [Ok v] for a normal return, [Skip]
      for the module's private [_Skip] exception, [Raise e] for any other
      exception.
    - Python truthiness is written out: [0] and the empty string are false,
      [None] is [None].
    - Sample buffers are lists of samples; a slice is [py_slice]. *)

From Stdlib Require Import QArith Qround Qminmax Qabs Lqa ZArith Lia List String Ascii Bool.
From stdpp Require Import gmap strings list fin_maps.
Import ListNotations.

Local Open Scope Z_scope.
Local Open Scope string_scope.

(** ** Results of calls that may raise *)

(** The messages of the exceptions the module raises itself, by the place
    that raises them. *)
Inductive message : Type :=
  | ChannelNotInTOC (name : string)                 (* line 281 *)
  | FailedToRead (name filename : string)
                 (span : option (Q * Q))            (* lines 224-228 *)
  | DifferentStartTimes                             (* line 440 *)
  | DifferentEndTimes                               (* line 447 *)
  | InvalidChannelType (type : string).             (* line 536 *)

Inductive error : Type :=
  | IndexError
  | KeyError
  | AttributeError
  | ZeroDivisionError
  | ValueError (m : message)
  | RuntimeError (m : message)
  | OtherError (what : string).

Inductive outcome (A : Type) : Type :=
  | Ok (a : A)
  | Skip
  | Raise (e : error).

Arguments Ok {A} a.
Arguments Skip {A}.
Arguments Raise {A} e.

Definition bind {A B} (m : outcome A) (f : A -> outcome B) : outcome B :=
  match m with
  | Ok a => f a
  | Skip => Skip
  | Raise e => Raise e
  end.

(** A collaborator's call returns or raises; it never raises [_Skip]. *)
Definition lift {A} (r : error + A) : outcome A :=
  match r with
  | inl e => Raise e
  | inr a => Ok a
  end.

(** ** Python helpers *)

(** Truth value of a number, a string, an optional value. *)
Definition truthyQ (q : Q) : bool := negb (Qeq_bool q 0).
Definition truthyZ (z : Z) : bool := negb (z =? 0)%Z.
Definition truthy_str (s : string) : bool :=
  match s with EmptyString => false | _ => true end.
Definition truthy_opt {A} (t : A -> bool) (o : option A) : bool :=
  match o with Some a => t a | None => false end.

(** [int(x)] on a float truncates towards zero; [math.ceil] rounds up. *)
Definition py_int (q : Q) : Z :=
  if Qle_bool 0 q then Qfloor q else Qceiling q.
Definition py_ceil (q : Q) : Z := Qceiling q.

(** One bound of a slice, as [slice.indices] resolves it for a sequence
    of length [len]: a negative bound counts from the end, and both are
    clamped to [0, len]. *)
Definition slice_bound (len i : Z) : Z :=
  if (i <? 0)%Z then Z.max 0 (i + len) else Z.min i len.

(** [arr[lo:hi]]; [hi = None] is a missing upper bound. *)
Definition py_slice {A} (arr : list A) (lo : Z) (hi : option Z) : list A :=
  let len := Z.of_nat (length arr) in
  let a := slice_bound len lo in
  let b := match hi with Some h => slice_bound len h | None => len end in
  firstn (Z.to_nat (b - a)) (skipn (Z.to_nat a) arr).

(** ** Type mapping table (lines 50-67) *)

(** The members of frameCPP's [FrVect] element-type enumeration. *)
Inductive frvect_type : Type :=
  | FR_VECT_C | FR_VECT_2S | FR_VECT_4S | FR_VECT_8S
  | FR_VECT_4R | FR_VECT_8R | FR_VECT_8C | FR_VECT_16C
  | FR_VECT_STRING
  | FR_VECT_1U | FR_VECT_2U | FR_VECT_4U | FR_VECT_8U.

(** numpy scalar types: the thirteen of the table, and three that numpy
    has and the table does not. *)
Inductive numpy_type : Type :=
  | int8 | int16 | int32 | int64
  | float32 | float64 | complex64 | complex128
  | string_
  | uint8 | uint16 | uint32 | uint64
  | bool_ | float16 | object_.

#[global] Instance frvect_type_eq_dec : EqDecision frvect_type.
Proof. solve_decision. Defined.
#[global] Instance numpy_type_eq_dec : EqDecision numpy_type.
Proof. solve_decision. Defined.

(** A small insertion-ordered dict: setting a present key replaces its
    value in place, setting an absent one appends the item. *)
Module Dict.
Section Ops.
Context {K V : Type} `{EqDecision K}.

Fixpoint get (k : K) (d : list (K * V)) : option V :=
  match d with
  | [] => None
  | (k', v) :: r => if decide (k = k') then Some v else get k r
  end.

Fixpoint set (k : K) (v : V) (d : list (K * V)) : list (K * V) :=
  match d with
  | [] => [(k, v)]
  | (k', v') :: r =>
      if decide (k = k') then (k, v) :: r else (k', v') :: set k v r
  end.

(** [dict(items)] *)
Definition of_items (items : list (K * V)) : list (K * V) :=
  fold_left (fun d kv => set (fst kv) (snd kv) d) items [].

Definition keys (d : list (K * V)) : list K := map fst d.
End Ops.
End Dict.

Definition NUMPY_TYPE_FROM_FRVECT : list (frvect_type * numpy_type) :=
  Dict.of_items
    [ (FR_VECT_C, int8);
      (FR_VECT_2S, int16);
      (FR_VECT_4S, int32);
      (FR_VECT_8S, int64);
      (FR_VECT_4R, float32);
      (FR_VECT_8R, float64);
      (FR_VECT_8C, complex64);
      (FR_VECT_16C, complex128);
      (FR_VECT_STRING, string_);
      (FR_VECT_1U, uint8);
      (FR_VECT_2U, uint16);
      (FR_VECT_4U, uint32);
      (FR_VECT_8U, uint64) ].

Definition FRVECT_TYPE_FROM_NUMPY : list (numpy_type * frvect_type) :=
  Dict.of_items (map (fun kv => (snd kv, fst kv)) NUMPY_TYPE_FROM_FRVECT).

(** Subscripting a table; [None] is the [KeyError] of a query outside it. *)
Definition native_type_for (g : frvect_type) : option numpy_type :=
  Dict.get g NUMPY_TYPE_FROM_FRVECT.
Definition tag_for (t : numpy_type) : option frvect_type :=
  Dict.get t FRVECT_TYPE_FROM_NUMPY.

(** The supported element types, as the specification lists them. *)
Definition supported_element_types : list numpy_type :=
  [ int8; int16; int32; int64; uint8; uint16; uint32; uint64;
    float32; float64; complex64; complex128; string_ ].

(** ** Vector records and series *)

Definition sample := Z.

(** An [FrVect]: its name, data array, first dimension and unit. *)
Record FrVect : Type := {
  vect_name : string;          (* GetName() *)
  vect_data : list sample;     (* GetDataArray() *)
  vect_dx : Q;                 (* GetDim(0).dx *)
  vect_startX : Q;             (* GetDim(0).startX *)
  vect_unitY : string          (* GetUnitY() *)
}.

(** A series as [series_class(arr, t0=, dt=, name=, channel=, unit=)]
    builds it. *)
Record Series : Type := {
  value : list sample;
  t0 : Q;
  dt : Q;
  name : string;
  channel : string;
  unit : option string
}.


(** ** read_frvect (lines 360-427) *)

Section ReadFrVect.
Variables (vect : FrVect) (epoch start end_ : Q) (name_ : option string).

Definition nsamp : Z := Z.of_nat (length (vect_data vect)).
Definition dimstart : Q := (epoch + vect_startX vect)%Q.
Definition dimend : Q := (dimstart + inject_Z nsamp * vect_dx vect)%Q.

(** index of first required sample (line 398).  The quotient is the exact
    one of the rationals.  The source divides doubles, and a double
    quotient can fall just short of a whole number that the exact one
    reaches (0.3 / 0.1), which lowers the index by one; so no statement
    below takes a request bound to lie exactly on the sample grid, other
    than the examples with spacing 1 and whole times, where the double
    quotient is exact as well. *)
Definition nxstart : Z :=
  py_int (Qmax 0 (start - dimstart) / vect_dx vect)%Q.

(** index of end sample (lines 405-408), with the exact quotient as for
    the first index *)
Definition nxend : option Z :=
  if truthyQ end_
  then Some (nsamp - py_ceil (Qmax 0 (dimend - end_) / vect_dx vect)%Q)
  else None.

(** the name filter (line 380) *)
Definition name_mismatch : bool :=
  truthy_str (vect_name vect)
  && truthy_opt truthy_str name_
  && negb (bool_decide (Some (vect_name vect) = name_)).

Definition read_frvect : outcome Series :=
  if name_mismatch then Skip
  else if Qeq_bool (vect_dx vect) 0 then Raise ZeroDivisionError
  else if (nsamp <=? nxstart)%Z then Skip
  else
    let arr :=
      if truthyZ nxstart || truthy_opt truthyZ nxend
      then py_slice (vect_data vect) nxstart nxend
      else vect_data vect in
    Ok {| value := arr;
          t0 := (dimstart + inject_Z nxstart * vect_dx vect)%Q;
          dt := vect_dx vect;
          name := vect_name vect;
          channel := vect_name vect;
          unit := if truthy_str (vect_unitY vect)
                  then Some (vect_unitY vect) else None |}.
End ReadFrVect.

(** The vector of the specification's trimming example: ten samples
    spanning [100, 110) with [dx = 1]; sample [i] holds the value [i]. *)
Definition vect_100_110 : FrVect :=
  {| vect_name := "X1:TEST";
     vect_data := [0; 1; 2; 3; 4; 5; 6; 7; 8; 9];
     vect_dx := 1;
     vect_startX := 0;
     vect_unitY := "m" |}.


(** ** Channel records and read_frdata (lines 298-357) *)

(** An [FrAdcData], [FrProcData] or [FrSimData] structure.  Only
    [FrProcData] has a [GetTRange] method; on the others the call raises
    [AttributeError], which is [None] here. *)
Record FrData : Type := {
  frdata_timeOffset : Q;        (* GetTimeOffset() *)
  frdata_tRange : option Q;     (* GetTRange() *)
  frdata_data : list FrVect     (* .data *)
}.

(** The value stored under a channel in the output dict: a series, or
    what [numpy.require(None, requirements=['O'])] makes of [None], a
    zero-dimensional object array with neither [span] nor [append]. *)
Inductive pyobj : Type :=
  | SeriesObj (s : Series)
  | NoneArray.

Section ReadFrData.
(** [self.append(other)] of the series collaborator: the grown series, or
    the exception it raises.  [other] is [None] when the caller passes
    [None]. *)
Variable series_append : Series -> option Series -> error + Series.

Variables (epoch start end_ : Q) (name_ : option string).

(** The loop over the record's vectors (lines 344-357); [out] is [None]
    until a vector has been read. *)
Fixpoint read_frdata_vectors (datastart : Q) (vects : list FrVect)
    (out : option Series) : outcome (option Series) :=
  match vects with
  | [] => Ok out
  | vect :: rest =>
      match read_frvect vect datastart start end_ name_ with
      | Skip => read_frdata_vectors datastart rest out
      | Raise e => Raise e
      | Ok new =>
          match out with
          | None => read_frdata_vectors datastart rest (Some new)
          | Some o =>
              match series_append o (Some new) with
              | inl e => Raise e
              | inr o' => read_frdata_vectors datastart rest (Some o')
              end
          end
      end
  end.

Definition read_frdata (frdata : FrData) : outcome (option Series) :=
  let datastart := (epoch + frdata_timeOffset frdata)%Q in
  let trange := match frdata_tRange frdata with
                | Some r => r
                | None => 0%Q
                end in
  if (truthyQ end_ && Qle_bool end_ datastart)
     || (truthyQ trange
         && negb (Qle_bool start (datastart + trange)%Q))
  then Skip
  else read_frdata_vectors datastart (frdata_data frdata) None.
End ReadFrData.

(** ** Streams *)

(** The three [ReadFr...Data] readers of a stream the module reaches. *)
Inductive reader : Type := ReadFrAdcData | ReadFrProcData | ReadFrSimData.

(** A frame as [ReadFrameN] returns it, with what the stream's readers
    give for a channel name in this frame. *)
Record FrameH : Type := {
  frame_GTime : Q;                                   (* GetGTime() *)
  frame_Dt : Q;                                      (* GetDt() *)
  frame_read : reader -> string -> error + FrData
}.

(** An open [IFrameFStream]: the frame count it reports, the frames it
    holds, and the three name lists of its table of contents. *)
Record IFrameFStream : Type := {
  stream_nframes : nat;                (* GetNumberOfFrames() *)
  stream_frames : list FrameH;         (* ReadFrameN(i) *)
  toc_Sim : list string;               (* GetTOC().GetSim() *)
  toc_Proc : list string;              (* GetTOC().GetProc() *)
  toc_ADC : list string                (* GetTOC().GetADC() *)
}.

(** ** Strings *)

Definition is_upper (c : ascii) : bool :=
  ((65 <=? nat_of_ascii c) && (nat_of_ascii c <=? 90))%nat.
Definition is_lower (c : ascii) : bool :=
  ((97 <=? nat_of_ascii c) && (nat_of_ascii c <=? 122))%nat.
Definition ascii_lower (c : ascii) : ascii :=
  if is_upper c then ascii_of_nat (nat_of_ascii c + 32) else c.
Definition ascii_upper (c : ascii) : ascii :=
  if is_lower c then ascii_of_nat (nat_of_ascii c - 32) else c.

(** [s.lower()] on ASCII text *)
Fixpoint lower (s : string) : string :=
  match s with
  | EmptyString => EmptyString
  | String c r => String (ascii_lower c) (lower r)
  end.

(** [s.title()] on ASCII text: a letter after a letter is lowered, any
    other letter is raised. *)
Fixpoint title_from (after_letter : bool) (s : string) : string :=
  match s with
  | EmptyString => EmptyString
  | String c r =>
      String (if after_letter then ascii_lower c else ascii_upper c)
             (title_from (is_upper c || is_lower c) r)
  end.
Definition title (s : string) : string := title_from false s.

(** ** get_channel_types (lines 243-283) *)

(** The [ctype] dicts live in a heap of dict objects, so that a dict a
    caller passes in and the dict the function fills are one object. *)
Definition loc := positive.
Abbreviation ctype_dict := (gmap string string).
Abbreviation heap := (gmap loc (gmap string string)).

(** [getattr(toc, 'Get{0}'.format(typename))()] *)
Definition toc_get (stream : IFrameFStream) (typename : string)
  : list string :=
  if String.eqb typename "Sim" then toc_Sim stream
  else if String.eqb typename "Proc" then toc_Proc stream
  else if String.eqb typename "ADC" then toc_ADC stream
  else [].

(** [ctype.get(channel, None)] as a truth value *)
Definition ctype_declared (ctype : gmap string string) (channel : string)
  : bool :=
  truthy_opt truthy_str (ctype !! channel).

(** The loop over the type names (lines 272-278): the first list that has
    the name sets the type. *)
Fixpoint find_type (stream : IFrameFStream) (name : string)
    (typenames : list string) (ctype : gmap string string)
    (channel : string) : gmap string string :=
  match typenames with
  | [] => ctype
  | typename :: rest =>
      if bool_decide (name ∈ toc_get stream typename)
      then <[channel := lower typename]> ctype
      else find_type stream name rest ctype channel
  end.

(** The loop over the channels (lines 267-282), on the dict it fills. *)
Fixpoint get_channel_types_loop (stream : IFrameFStream)
    (channels : list string) (ctype : gmap string string)
  : gmap string string * outcome Datatypes.unit :=
  match channels with
  | [] => (ctype, Ok tt)
  | channel :: rest =>
      let name := channel in
      let ctype1 :=
        if negb (ctype_declared ctype channel)
        then find_type stream name ["Sim"; "Proc"; "ADC"] ctype channel
        else ctype in
      if negb (ctype_declared ctype1 channel)
      then (ctype1, Raise (ValueError (ChannelNotInTOC name)))
      else get_channel_types_loop stream rest ctype1
  end.

(** [ctype = ctype or {}]: the dict passed in when there is one and it is
    not empty, a new empty dict otherwise. *)
Definition ctype_or_new (h : heap) (ctype : option loc) : heap * loc :=
  match ctype with
  | Some l =>
      if bool_decide (h !!! l = (∅ : gmap string string))
      then (<[fresh (dom h) := ∅]> h, fresh (dom h))
      else (h, l)
  | None => (<[fresh (dom h) := ∅]> h, fresh (dom h))
  end.

(** The function mutates the dict in place, so the heap holds what the
    loop filled in whether the call returns the dict or raises. *)
Definition get_channel_types (h : heap) (stream : IFrameFStream)
    (channels : list string) (ctype : option loc) : heap * outcome loc :=
  let '(h0, l) := ctype_or_new h ctype in
  let '(d, r) := get_channel_types_loop stream channels (h0 !!! l) in
  (<[l := d]> h0, match r with
                  | Ok _ => Ok l
                  | Skip => Skip
                  | Raise e => Raise e
                  end).

(** The resolution in the specification's words: Sim list, else Proc
    list, else ADC list. *)
Definition resolve_by_priority (stream : IFrameFStream) (name : string)
  : option string :=
  if bool_decide (name ∈ toc_Sim stream) then Some "sim"
  else if bool_decide (name ∈ toc_Proc stream) then Some "proc"
  else if bool_decide (name ∈ toc_ADC stream) then Some "adc"
  else None.

(** ** read_gwf (lines 134-240, 286-295) *)

(** How the [while True] loop over the frames was left: by the [break]
    of line 219, or by the one of line 194. *)
Inductive loop_exit : Type := EarlyExit | Exhausted.

(** [numpy.require(new, requirements=['O'])] as a value *)
Definition numpy_require (new : option Series) : pyobj :=
  match new with
  | Some s => SeriesObj s
  | None => NoneArray
  end.

(** [getattr(stream, attr)] for the reader methods *)
Definition stream_reader (attr : string) : option reader :=
  if String.eqb attr "ReadFrAdcData" then Some ReadFrAdcData
  else if String.eqb attr "ReadFrProcData" then Some ReadFrProcData
  else if String.eqb attr "ReadFrSimData" then Some ReadFrSimData
  else None.

Definition _need_frame (frame : FrameH) (start end_ : Q) : bool :=
  let frstart := frame_GTime frame in
  if truthyQ end_ && Qle_bool end_ frstart then false
  else
    let frend := (frstart + frame_Dt frame)%Q in
    if truthyQ start && Qle_bool frend start then false
    else true.

Section ReadGwf.
Variable series_append : Series -> option Series -> error + Series.
(** [Segment(start, end) in series.span], of the segment and series
    collaborators. *)
Variable span_contains : Q -> Q -> Series -> bool.
(** [io_gwf.open_gwf(filename, 'r')] *)
Variable open_gwf : string -> error + IFrameFStream.

Definition _read_channel (frame : FrameH) (name ctype : string)
    (epoch start end_ : Q) : outcome (option Series) :=
  match stream_reader ("ReadFr" ++ title ctype ++ "Data") with
  | None => Raise AttributeError
  | Some _reader =>
      match frame_read frame _reader name with
      | inl e => Raise e
      | inr data =>
          read_frdata series_append epoch start end_ (Some name) data
      end
  end.

(** Lines 212-215: append to the channel's series; on [KeyError], from
    the subscript or from the append, store the new object. *)
Definition append_or_set (out : list (string * pyobj)) (channel : string)
    (new : option Series) : error + list (string * pyobj) :=
  let appended : error + pyobj :=
    match Dict.get channel out with
    | None => inl KeyError
    | Some (SeriesObj s) =>
        match series_append s new with
        | inl e => inl e
        | inr s' => inr (SeriesObj s')
        end
    | Some NoneArray => inl AttributeError
    end in
  match appended with
  | inr obj => inr (Dict.set channel obj out)
  | inl KeyError => inr (Dict.set channel (numpy_require new) out)
  | inl e => inl e
  end.

(** The loop over the channels for one frame (lines 205-215). *)
Fixpoint read_channels (frame : FrameH) (ctype : gmap string string)
    (epoch start end_ : Q) (channels : list string)
    (out : list (string * pyobj)) : outcome (list (string * pyobj)) :=
  match channels with
  | [] => Ok out
  | channel :: rest =>
      match ctype !! channel with
      | None => Raise KeyError
      | Some t =>
          match _read_channel frame channel t epoch start end_ with
          | Skip => read_channels frame ctype epoch start end_ rest out
          | Raise e => Raise e
          | Ok new =>
              match append_or_set out channel new with
              | inl e => Raise e
              | inr out' =>
                  read_channels frame ctype epoch start end_ rest out'
              end
          end
      end
  end.

(** [all(span in out[channel].span for channel in out)] (line 218): the
    dict is walked in insertion order and the walk stops at the first
    series that does not cover the span. *)
Fixpoint all_span_covered (start end_ : Q) (items : list (string * pyobj))
  : error + bool :=
  match items with
  | [] => inr true
  | (_, SeriesObj s) :: rest =>
      if span_contains start end_ s
      then all_span_covered start end_ rest
      else inr false
  | (_, NoneArray) :: _ => inl AttributeError
  end.

(** The loop over the frames (lines 184-219).  [frames] is what the
    stream holds from index [this] on, so that [ReadFrameN(this)] is its
    head, or [IndexError] when it is empty. *)
Fixpoint read_frames (nframes : nat) (ctype : gmap string string)
    (channels : list string) (start end_ : Q)
    (this : nat) (frames : list FrameH) (out : list (string * pyobj))
  : outcome (list (string * pyobj) * loop_exit) :=
  match frames with
  | [] =>
      if (nframes <=? this)%nat then Ok (out, Exhausted)
      else Raise IndexError
  | frame :: rest =>
      if negb (_need_frame frame start end_)
      then read_frames nframes ctype channels start end_ (S this) rest out
      else
        let epoch := frame_GTime frame in
        match read_channels frame ctype epoch start end_ channels out with
        | Skip => Skip
        | Raise e => Raise e
        | Ok out' =>
            match all_span_covered start end_ out' with
            | inl e => Raise e
            | inr true => Ok (out', EarlyExit)
            | inr false =>
                read_frames nframes ctype channels start end_
                            (S this) rest out'
            end
        end
  end.

(** The check after the loop (lines 222-228). *)
Fixpoint check_channels_read (filename : string) (start end_ : Q)
    (channels : list string) (out : list (string * pyobj))
  : outcome Datatypes.unit :=
  match channels with
  | [] => Ok tt
  | channel :: rest =>
      match Dict.get channel out with
      | None =>
          Raise (ValueError
                   (FailedToRead channel filename
                      (if truthyQ start || truthyQ end_
                       then Some (start, end_) else None)))
      | Some _ => check_channels_read filename start end_ rest out
      end
  end.

(** [if not start: start = 0] *)
Definition or_zero (t : option Q) : Q :=
  match t with
  | Some q => if truthyQ q then q else 0%Q
  | None => 0%Q
  end.

(** [read_gwf], with the way the frame loop was left kept next to the
    dict it returns. *)
Definition read_gwf_traced (h : heap) (filename : string)
    (channels : list string) (start end_ : option Q) (ctype : option loc)
  : heap * outcome (list (string * pyobj) * loop_exit) :=
  let start := or_zero start in
  let end_ := or_zero end_ in
  match open_gwf filename with
  | inl e => (h, Raise e)
  | inr stream =>
      let nframes := stream_nframes stream in
      match get_channel_types h stream channels ctype with
      | (h', Skip) => (h', Skip)
      | (h', Raise e) => (h', Raise e)
      | (h', Ok l) =>
          (h',
           match read_frames nframes (h' !!! l) channels start end_
                             0 (stream_frames stream) [] with
           | Skip => Skip
           | Raise e => Raise e
           | Ok (out, how) =>
               match check_channels_read filename start end_ channels out
               with
               | Ok _ => Ok (out, how)
               | Skip => Skip
               | Raise e => Raise e
               end
           end)
      end
  end.

Definition read_gwf (h : heap) (filename : string)
    (channels : list string) (start end_ : option Q) (ctype : option loc)
  : heap * outcome (list (string * pyobj)) :=
  let '(h', r) := read_gwf_traced h filename channels start end_ ctype in
  (h', match r with
       | Ok (out, _) => Ok out
       | Skip => Skip
       | Raise e => Raise e
       end).
End ReadGwf.

(** ** write (lines 432-570) *)

(** The channel of a series to write: its name, its [ifo] prefix, and its
    [_ctype] ([None] when the attribute is unset or missing). *)
Record Channel : Type := {
  channel_str : string;              (* str(channel) *)
  channel_ifo : option string;       (* channel.ifo *)
  channel_ctype : option string      (* channel._ctype *)
}.

(** A series handed to [write]. *)
Record TimeSeries : Type := {
  ts_value : list sample;            (* .value *)
  ts_x0 : Q;                         (* .x0.value, .t0.value *)
  ts_dx : Q;                         (* .dx.value *)
  ts_dx_unit : string;               (* str(.dx.unit) *)
  ts_name : option string;           (* .name *)
  ts_channel : option Channel;       (* .channel *)
  ts_unit : string;                  (* str(.unit) *)
  ts_dtype : numpy_type              (* .dtype.type *)
}.

(** Modelled from the spec: the [span] of the series collaborator, the
    half-open interval from the start time to the start time plus the
    sample count times the spacing. *)
Definition ts_span (ts : TimeSeries) : Q * Q :=
  (ts_x0 ts, (ts_x0 ts + inject_Z (Z.of_nat (length (ts_value ts))) * ts_dx ts)%Q).

(** The vector and channel records [write] builds, by constructor call. *)
Record FrVectOut : Type := {
  out_name : string;
  out_type : frvect_type;
  out_ndim : Z;
  out_nx : nat;                      (* Dimension(size, dx, unit, 0) *)
  out_dx : Q;
  out_dx_unit : string;
  out_startX : Q;
  out_unitY : string;
  out_data : list sample
}.

Inductive FrDataOut : Type :=
  | FrAdcData (channel : string) (group channelid nbits : Z)
              (sample_rate : Q) (vect : FrVectOut)
  | FrProcData (channel comment : string) (offset trange : Q)
               (fshift phase frange bw : Q) (vect : FrVectOut)
  | FrSimData (channel comment : string) (sample_rate offset : Q)
              (fshift phase : Q) (vect : FrVectOut).

(** What [write] does to the world, in order: the frame it creates, the
    channel records it appends to it, the file it writes. *)
Inductive effect : Type :=
  | CreateFrame (time duration : Q) (name : string) (run : Z)
                (ifos : list string)
  | AppendFrData (frdata : FrDataOut)
  | WriteFrames (outfile : string) (compression compression_level : Z).

(** A set of times built from a list: one element per distinct time. *)
Fixpoint time_set (times : list Q) : list Q :=
  match times with
  | [] => []
  | t :: rest =>
      if existsb (Qeq_bool t) (time_set rest) then time_set rest
      else t :: time_set rest
  end.

(** [str(x)] of a name that may be [None] *)
Definition str_opt (s : option string) : string :=
  match s with Some x => x | None => "None" end.

Definition create_frvect (timeseries : TimeSeries) : error + FrVectOut :=
  match tag_for (ts_dtype timeseries) with
  | None => inl KeyError
  | Some tag =>
      inr {| out_name := match ts_name timeseries with
                         | Some n => n
                         | None => ""
                         end;
             out_type := tag;
             out_ndim := 1;
             out_nx := length (ts_value timeseries);
             out_dx := ts_dx timeseries;
             out_dx_unit := ts_dx_unit timeseries;
             out_startX := 0;
             out_unitY := ts_unit timeseries;
             out_data := ts_value timeseries |}
  end.

(** [append_to_frame]; [epoch] is the frame's [GetGTime()]. *)
Definition append_to_frame (epoch : Q) (timeseries : TimeSeries)
    (type : string) (channelid : Z) : error + FrDataOut :=
  let channel :=
    match ts_channel timeseries with
    | Some c => channel_str c
    | None => str_opt (ts_name timeseries)
    end in
  let offset := (ts_x0 timeseries - epoch)%Q in
  let sample_rate := (1 / ts_dx timeseries)%Q in
  let frdata : error + (FrVectOut -> FrDataOut) :=
    if String.eqb (lower type) "adc"
    then inr (FrAdcData channel 0 channelid 16 sample_rate)
    else if String.eqb (lower type) "proc"
    then inr (FrProcData channel (str_opt (ts_name timeseries)) offset
                (Qabs (snd (ts_span timeseries) - fst (ts_span timeseries)))
                0 0 0 0)
    else if String.eqb (lower type) "sim"
    then inr (FrSimData
                (str_opt (option_map channel_str (ts_channel timeseries)))
                (str_opt (ts_name timeseries)) sample_rate offset 0 0)
    else inl (RuntimeError (InvalidChannelType type)) in
  match frdata with
  | inl e => inl e
  | inr mk =>
      match create_frvect timeseries with
      | inl e => inl e
      | inr vect => inr (mk vect)
      end
  end.

Section Write.
(** [series.crop(start, end)] of the series collaborator *)
Variable crop : TimeSeries -> Q -> Q -> error + TimeSeries.
(** [hasattr(frameCPP, 'DETECTOR_LOCATION_{ifo}')] *)
Variable known_detector : string -> bool.

(** The detector prefixes of the series (lines 453-455), once each. *)
Fixpoint ifos_of (tsdict : list (string * TimeSeries)) : list string :=
  match tsdict with
  | [] => []
  | (_, ts) :: rest =>
      match ts_channel ts with
      | Some c =>
          match channel_ifo c with
          | Some ifo =>
              if truthy_str ifo && known_detector ifo
                 && negb (bool_decide (ifo ∈ ifos_of rest))
              then ifo :: ifos_of rest
              else ifos_of rest
          | None => ifos_of rest
          end
      | None => ifos_of rest
      end
  end.

(** The loop that appends the channels (lines 462-469); [log] is what was
    done so far. *)
Fixpoint write_channels (start end_ : Q) (i : Z)
    (items : list (string * TimeSeries)) (log : list effect)
  : list effect * outcome Datatypes.unit :=
  match items with
  | [] => (log, Ok tt)
  | (key, ts) :: rest =>
      let ctype :=
        match ts_channel ts with
        | Some c =>
            match channel_ctype c with
            | Some t => if truthy_str t then t else "proc"
            | None => "proc"
            end
        | None => "proc"
        end in
      match crop ts start end_ with
      | inl e => (log, Raise e)
      | inr cropped =>
          match append_to_frame start cropped ctype i with
          | inl e => (log, Raise e)
          | inr frdata =>
              write_channels start end_ (i + 1) rest
                             (log ++ [AppendFrData frdata])%list
          end
      end
  end.

(** An explicit start or end when one is given ([if not start] fails),
    else the one time the series share, else the error (lines 437-450). *)
Definition given_or_common (t : option Q) (times : list Q) (m : message)
  : error + Q :=
  match t with
  | Some q =>
      if truthyQ q then inr q
      else match time_set times with
           | [c] => inr c
           | _ => inl (RuntimeError m)
           end
  | None =>
      match time_set times with
      | [c] => inr c
      | _ => inl (RuntimeError m)
      end
  end.

Definition write (tsdict : list (string * TimeSeries)) (outfile : string)
    (start end_ : option Q) (name : string)
    (run compression compression_level : Z)
  : list effect * outcome Datatypes.unit :=
  match given_or_common start (map (fun kv => ts_x0 (snd kv)) tsdict)
                        DifferentStartTimes with
  | inl e => ([], Raise e)
  | inr start =>
      match given_or_common end_
              (map (fun kv => snd (ts_span (snd kv))) tsdict)
              DifferentEndTimes with
      | inl e => ([], Raise e)
      | inr end_ =>
          let duration := (end_ - start)%Q in
          let ifos := ifos_of tsdict in
          let log := [CreateFrame start duration name run ifos] in
          match write_channels start end_ 0 tsdict log with
          | (log', Ok _) =>
              ((log' ++ [WriteFrames outfile compression compression_level])%list,
               Ok tt)
          | (log', r) => (log', r)
          end
      end
  end.
End Write.

(** A requested channel that has no declared type and that none of the
    three name lists holds. *)
Definition unresolvable (stream : IFrameFStream) (ctype : gmap string string)
    (channel : string) : bool :=
  negb (ctype_declared ctype channel)
  && match resolve_by_priority stream channel with
     | Some _ => false
     | None => true
     end.

(** The type of a channel after a call that returns: the declared type
    when there is one, the resolved one for a requested channel that had
    none, and what the dict held for any other key. *)
Definition resolved_types (stream : IFrameFStream)
    (ctype : gmap string string) (channels : list string)
    (channel : string) : option string :=
  if ctype_declared ctype channel then ctype !! channel
  else if bool_decide (channel ∈ channels)
       then resolve_by_priority stream channel
       else ctype !! channel.

(** The index formulas in the specification's words (section 4.2, steps 3
    and 4): [floor(max(0, request.start - vector.start) / dx)] and
    [n_samples - ceil(max(0, vector.end - request.end) / dx)]. *)
Definition spec_first_index (vect : FrVect) (epoch start : Q) : Z :=
  Qfloor (Qmax 0 (start - dimstart vect epoch) / vect_dx vect)%Q.
Definition spec_last_index (vect : FrVect) (epoch end_ : Q) : Z :=
  nsamp vect - Qceiling (Qmax 0 (dimend vect epoch - end_) / vect_dx vect)%Q.



(** ** Collaborators and inputs for the examples *)

(** Modelled from the spec: the [append] of the series collaborator
    (section 6), an in-place time-ordered concatenation that fails when
    the spacing or the unit of the two series differ.  The specification
    says nothing of appending [None]; it fails here. *)
Definition series_append_spec (self : Series) (other : option Series)
  : error + Series :=
  match other with
  | None => inl (OtherError "append: not a series")
  | Some o =>
      if Qeq_bool (dt self) (dt o) && bool_decide (unit self = unit o)
      then inr {| value := value self ++ value o;
                  t0 := t0 self;
                  dt := dt self;
                  name := name self;
                  channel := channel self;
                  unit := unit self |}
      else inl (OtherError "append: spacing or unit mismatch")
  end.

(** Modelled from the spec: the containment of the requested span in the
    span of a series (section 3, Time Interval), for a request bounded on
    both sides: the series starts at or before the request's start and
    ends at or after its end. *)
Definition span_contains_spec (start end_ : Q) (s : Series) : bool :=
  Qle_bool (t0 s) start
  && Qle_bool end_ (t0 s + inject_Z (Z.of_nat (length (value s))) * dt s)%Q.

(** A file of one frame spanning [100, 110) that holds the ADC channel
    [X1:TEST] over the whole frame. *)
Definition frdata_full : FrData :=
  {| frdata_timeOffset := 0; frdata_tRange := None;
     frdata_data := [vect_100_110] |}.

Definition frame_full : FrameH :=
  {| frame_GTime := 100; frame_Dt := 10;
     frame_read := fun r n =>
       match r with
       | ReadFrAdcData =>
           if String.eqb n "X1:TEST" then inr frdata_full
           else inl (OtherError "no such channel")
       | _ => inl (OtherError "no such channel")
       end |}.

Definition stream_full : IFrameFStream :=
  {| stream_nframes := 1; stream_frames := [frame_full];
     toc_Sim := []; toc_Proc := []; toc_ADC := ["X1:TEST"] |}.

(** A file of one frame spanning [100, 110) in which the processed
    channel [X1:TEST] has data for the first half only, [100, 105). *)
Definition vect_100_105 : FrVect :=
  {| vect_name := "X1:TEST";
     vect_data := [0; 1; 2; 3; 4];
     vect_dx := 1;
     vect_startX := 0;
     vect_unitY := "m" |}.

Definition frdata_half : FrData :=
  {| frdata_timeOffset := 0; frdata_tRange := Some 5%Q;
     frdata_data := [vect_100_105] |}.

Definition frame_half : FrameH :=
  {| frame_GTime := 100; frame_Dt := 10;
     frame_read := fun r n =>
       match r with
       | ReadFrProcData =>
           if String.eqb n "X1:TEST" then inr frdata_half
           else inl (OtherError "no such channel")
       | _ => inl (OtherError "no such channel")
       end |}.

Definition stream_half : IFrameFStream :=
  {| stream_nframes := 1; stream_frames := [frame_half];
     toc_Sim := []; toc_Proc := ["X1:TEST"]; toc_ADC := [] |}.

(** A file of one frame spanning [100, 110) with the ADC channel
    [X1:TEST] over the whole frame and a processed channel [X1:AUX] whose
    record starts at 120. *)
Definition frdata_late : FrData :=
  {| frdata_timeOffset := 20; frdata_tRange := Some 10%Q;
     frdata_data := [ {| vect_name := "X1:AUX";
                         vect_data := [0; 1; 2; 3; 4; 5; 6; 7; 8; 9];
                         vect_dx := 1; vect_startX := 0;
                         vect_unitY := "m" |} ] |}.

Definition frame_two : FrameH :=
  {| frame_GTime := 100; frame_Dt := 10;
     frame_read := fun r n =>
       match r with
       | ReadFrAdcData =>
           if String.eqb n "X1:TEST" then inr frdata_full
           else inl (OtherError "no such channel")
       | ReadFrProcData =>
           if String.eqb n "X1:AUX" then inr frdata_late
           else inl (OtherError "no such channel")
       | _ => inl (OtherError "no such channel")
       end |}.

Definition stream_two : IFrameFStream :=
  {| stream_nframes := 1; stream_frames := [frame_two];
     toc_Sim := []; toc_Proc := ["X1:AUX"]; toc_ADC := ["X1:TEST"] |}.

(** The files the examples open. *)
Definition open_example (filename : string) : error + IFrameFStream :=
  if String.eqb filename "full.gwf" then inr stream_full
  else if String.eqb filename "half.gwf" then inr stream_half
  else if String.eqb filename "two.gwf" then inr stream_two
  else inl (OtherError "no such file").

(** Two series to write, one starting at 100 and one at 105. *)
Definition ts_from (x0 : Q) : TimeSeries :=
  {| ts_value := [1; 2; 3; 4; 5];
     ts_x0 := x0;
     ts_dx := 1;
     ts_dx_unit := "s";
     ts_name := Some "X1:TEST";
     ts_channel := None;
     ts_unit := "m";
     ts_dtype := int64 |}.

(** The first claim as it is written, in its two parts: a dict that
    [read_gwf] returns holds, for every requested channel, a series that
    covers the requested span; and the frame loop is left early only
    when that is so. *)
Definition coverage_or_failure
    (series_append : Series -> option Series -> error + Series)
    (span_contains : Q -> Q -> Series -> bool)
    (open_gwf : string -> error + IFrameFStream)
    (h : heap) (filename : string) (channels : list string)
    (start end_ : option Q) (ctype : option loc) : Prop :=
  forall out : list (string * pyobj),
    snd (read_gwf series_append span_contains open_gwf
                  h filename channels start end_ ctype) = Ok out ->
    forall c : string, c ∈ channels ->
      exists s : Series,
        Dict.get c out = Some (SeriesObj s) /\
        span_contains (or_zero start) (or_zero end_) s = true.

Definition early_exit_only_on_full_coverage
    (series_append : Series -> option Series -> error + Series)
    (span_contains : Q -> Q -> Series -> bool)
    (stream : IFrameFStream) (ctype : gmap string string)
    (channels : list string) (start end_ : Q) : Prop :=
  forall out : list (string * pyobj),
    read_frames series_append span_contains (stream_nframes stream)
                ctype channels start end_ 0 (stream_frames stream) []
    = Ok (out, EarlyExit) ->
    forall c : string, c ∈ channels ->
      exists s : Series,
        Dict.get c out = Some (SeriesObj s) /\
        span_contains start end_ s = true.

(** The dict under construction: no key twice, and no key that was not
    requested. *)
Definition out_invariant (channels : list string)
    (out : list (string * pyobj)) : Prop :=
  List.NoDup (map fst out) /\
  forall c, is_Some (Dict.get c out) -> c ∈ channels.

(** The type a series is written with (lines 463-467): its channel's
    [_ctype], or ['proc'] when that is unset, empty or the series has no
    channel. *)
Definition channel_type_of (ts : TimeSeries) : string :=
  match ts_channel ts with
  | Some c =>
      match channel_ctype c with
      | Some t => if truthy_str t then t else "proc"
      | None => "proc"
      end
  | None => "proc"
  end.

(** The type strings [append_to_frame] accepts. *)
Definition valid_channel_type (type : string) : bool :=
  String.eqb (lower type) "adc" || String.eqb (lower type) "proc"
  || String.eqb (lower type) "sim".

(** Modelled from the spec: what the frame library gives back for a
    vector and for a processed or simulated channel record that were
    handed to it (section 8, round trip): the fields they were built
    with. *)
Definition frvect_of_out (v : FrVectOut) : FrVect :=
  {| vect_name := out_name v;
     vect_data := out_data v;
     vect_dx := out_dx v;
     vect_startX := out_startX v;
     vect_unitY := out_unitY v |}.

Definition frdata_of_out (r : FrDataOut) : option FrData :=
  match r with
  | FrAdcData _ _ _ _ _ _ => None
  | FrProcData _ _ offset trange _ _ _ _ vect =>
      Some {| frdata_timeOffset := offset;
              frdata_tRange := Some trange;
              frdata_data := [frvect_of_out vect] |}
  | FrSimData _ _ _ offset _ _ vect =>
      Some {| frdata_timeOffset := offset;
              frdata_tRange := None;
              frdata_data := [frvect_of_out vect] |}
  end.

(** ** read (lines 78-131) *)

Section Read.
Variable series_append : Series -> option Series -> error + Series.
Variable span_contains : Q -> Q -> Series -> bool.
Variable open_gwf : string -> error + IFrameFStream.
(** [out.append(other, copy=False)] of the dict collaborator *)
Variable dict_append :
  list (string * pyobj) -> list (string * pyobj)
  -> error + list (string * pyobj).

(** [numpy.require(x, requirements=['O'])] on an object of the dict: the
    same contents; which buffer holds them is not part of the value. *)
Definition require_owned (x : pyobj) : pyobj := x.

(** The loop over the files (lines 123-130); [source] is the value of
    [file_list(source)] from index [i] on, [ctype] the dict that
    [channel_dict_kwarg] built. *)
Fixpoint read_files (h : heap) (i : nat) (source : list string)
    (channels : list string) (start end_ : option Q) (ctype : option loc)
    (out : list (string * pyobj))
  : heap * outcome (list (string * pyobj)) :=
  match source with
  | [] => (h, Ok out)
  | file_ :: rest =>
      let out :=
        if (i =? 1)%nat
        then map (fun kv => (fst kv, require_owned (snd kv))) out
        else out in
      match read_gwf series_append span_contains open_gwf
                     h file_ channels start end_ ctype with
      | (h', Ok new) =>
          match dict_append out new with
          | inl e => (h', Raise e)
          | inr out' =>
              read_files h' (S i) rest channels start end_ ctype out'
          end
      | (h', Skip) => (h', Skip)
      | (h', Raise e) => (h', Raise e)
      end
  end.

Definition read (h : heap) (source : list string) (channels : list string)
    (start end_ : option Q) (ctype : option loc)
  : heap * outcome (list (string * pyobj)) :=
  read_files h 0 source channels start end_ ctype [].
End Read.




(** * Properties *)

Example read_frvect_103_107 :
  read_frvect vect_100_110 100 103 107 (Some "X1:TEST") =
  Ok {| value := [3; 4; 5; 6]; t0 := 103; dt := 1;
        name := "X1:TEST"; channel := "X1:TEST"; unit := Some "m" |}.
Proof. vm_compute. reflexivity. Qed.


(** ** Rounding and slicing lemmas *)

Section Rounding.
Local Open Scope Q_scope.

Lemma div_mul (a dx : Q) : 0 < dx -> (a / dx) * dx == a.
Proof. intros H. field. lra. Qed.

Lemma div_nonneg (a dx : Q) : 0 < dx -> 0 <= a -> 0 <= a / dx.
Proof.
  intros Hdx Ha. apply Qle_shift_div_l; [assumption | lra].
Qed.

Lemma floor_div_bounds (a dx : Q) :
  0 < dx ->
  inject_Z (Qfloor (a / dx)) * dx <= a /\
  a < (inject_Z (Qfloor (a / dx)) + 1) * dx.
Proof.
  intros Hdx.
  pose proof (Qfloor_le (a / dx)) as Hl.
  pose proof (Qlt_floor (a / dx)) as Hu.
  rewrite inject_Z_plus in Hu. change (inject_Z 1) with 1 in Hu.
  pose proof (div_mul a dx Hdx) as E.
  apply (Qmult_le_compat_r _ _ dx) in Hl; [|lra].
  apply (Qmult_lt_compat_r _ _ dx) in Hu; [|lra].
  rewrite E in Hl, Hu. split; assumption.
Qed.


Lemma floor_nonneg (q : Q) : 0 <= q -> (0 <= Qfloor q)%Z.
Proof.
  intros H. change 0%Z with (Qfloor 0). apply Qfloor_resp_le, H.
Qed.

Lemma ceiling_nonneg (q : Q) : 0 <= q -> (0 <= Qceiling q)%Z.
Proof.
  intros H. change 0%Z with (Qceiling 0). apply Qceiling_resp_le, H.
Qed.

Lemma py_int_nonneg (q : Q) : 0 <= q -> py_int q = Qfloor q.
Proof.
  intros H. unfold py_int.
  destruct (Qle_bool 0 q) eqn:E; [reflexivity|].
  apply Qle_bool_iff in H. congruence.
Qed.

(** Comparing whole multiples of a positive step. *)
Lemma steps_le (m n : Z) (dx : Q) :
  0 < dx -> (m <= n)%Z -> inject_Z m * dx <= inject_Z n * dx.
Proof.
  intros Hdx H. apply Qmult_le_compat_r; [|lra].
  rewrite <- Zle_Qle. exact H.
Qed.

End Rounding.

Section Slicing.
Context {A : Type}.
Implicit Types (arr : list A) (lo hi : Z).

Lemma slice_bound_nonneg (len i : Z) :
  (0 <= i)%Z -> slice_bound len i = Z.min i len.
Proof.
  intros H. unfold slice_bound.
  destruct (i <? 0)%Z eqn:E; [|reflexivity].
  apply Z.ltb_lt in E. lia.
Qed.



Lemma py_slice_lookup arr lo (hi : option Z) (i : nat) (x : A) :
  (0 <= lo)%Z ->
  py_slice arr lo hi !! i = Some x ->
  arr !! (Z.to_nat lo + i)%nat = Some x.
Proof.
  intros Hlo. unfold py_slice.
  rewrite slice_bound_nonneg by lia.
  intros H. apply lookup_take_Some in H as [H _].
  rewrite lookup_drop in H.
  destruct (Z_le_gt_dec lo (Z.of_nat (length arr))) as [Hle|Hgt].
  - rewrite Z.min_l in H by lia. exact H.
  - rewrite Z.min_r in H by lia. rewrite Nat2Z.id in H.
    apply lookup_lt_Some in H. lia.
Qed.
End Slicing.

Section Slicing2.
Context {A : Type}.

Lemma py_slice_length_le (arr : list A) (lo : Z) (hi : option Z) :
  (0 <= lo)%Z ->
  (length (py_slice arr lo hi) <= length arr - Z.to_nat lo)%nat.
Proof.
  intros Hlo. unfold py_slice.
  rewrite slice_bound_nonneg by lia.
  rewrite length_take, length_drop. lia.
Qed.

Lemma py_slice_open (arr : list A) (lo : Z) :
  (0 <= lo)%Z -> py_slice arr lo None = drop (Z.to_nat lo) arr.
Proof.
  intros Hlo. unfold py_slice.
  rewrite slice_bound_nonneg by lia.
  destruct (Z_le_gt_dec lo (Z.of_nat (length arr))) as [Hle|Hgt].
  - rewrite Z.min_l by lia.
    apply take_ge. rewrite length_drop. lia.
  - rewrite Z.min_r by lia. rewrite Nat2Z.id.
    rewrite !drop_ge by lia. apply take_nil.
Qed.
End Slicing2.

(** ** The vector decoder *)

Section ReadFrVectFacts.
Local Open Scope Q_scope.
Variables (vect : FrVect) (epoch start end_ : Q) (name_ : option string).
Hypothesis Hdx : 0 < vect_dx vect.

Local Abbreviation dx := (vect_dx vect).
Local Abbreviation first := (nxstart vect epoch start).
Local Abbreviation last := (spec_last_index vect epoch end_).

Lemma dx_nonzero : Qeq_bool (vect_dx vect) 0 = false.
Proof.
  destruct (Qeq_bool (vect_dx vect) 0) eqn:E; [|reflexivity].
  apply Qeq_bool_eq in E. lra.
Qed.

Lemma nxstart_floor : first = spec_first_index vect epoch start.
Proof.
  apply py_int_nonneg, div_nonneg; [exact Hdx | apply Q.le_max_l].
Qed.

Lemma nxstart_nonneg : (0 <= first)%Z.
Proof.
  rewrite nxstart_floor. apply floor_nonneg, div_nonneg;
    [exact Hdx | apply Q.le_max_l].
Qed.

Lemma nxstart_bounds :
  inject_Z first * dx <= Qmax 0 (start - dimstart vect epoch) /\
  Qmax 0 (start - dimstart vect epoch) < (inject_Z first + 1) * dx.
Proof.
  rewrite nxstart_floor. apply floor_div_bounds, Hdx.
Qed.

Lemma nxend_bounded :
  truthyQ end_ = true -> nxend vect epoch end_ = Some last.
Proof. intros H. unfold nxend. rewrite H. reflexivity. Qed.

Lemma nxend_unbounded :
  truthyQ end_ = false -> nxend vect epoch end_ = None.
Proof. intros H. unfold nxend. rewrite H. reflexivity. Qed.

Lemma last_le_nsamp : (last <= nsamp vect)%Z.
Proof.
  unfold last, spec_last_index.
  pose proof (ceiling_nonneg (Qmax 0 (dimend vect epoch - end_) / dx)) as H.
  specialize (H (div_nonneg _ _ Hdx (Q.le_max_l _ _))).
  lia.
Qed.


(** What a call that passes the name filter and the start test returns. *)
Lemma read_frvect_ok :
  name_mismatch vect name_ = false ->
  (first < nsamp vect)%Z ->
  read_frvect vect epoch start end_ name_ =
  Ok {| value :=
          if truthyZ first || truthy_opt truthyZ (nxend vect epoch end_)
          then py_slice (vect_data vect) first (nxend vect epoch end_)
          else vect_data vect;
        t0 := dimstart vect epoch + inject_Z first * dx;
        dt := dx;
        name := vect_name vect;
        channel := vect_name vect;
        unit := if truthy_str (vect_unitY vect)
                then Some (vect_unitY vect) else None |}.
Proof.
  intros Hn Hlt. unfold read_frvect. rewrite Hn, dx_nonzero.
  destruct (nsamp vect <=? first)%Z eqn:E.
  - apply Z.leb_le in E. lia.
  - reflexivity.
Qed.


Lemma read_frvect_inv (s : Series) :
  read_frvect vect epoch start end_ name_ = Ok s ->
  name_mismatch vect name_ = false /\ (first < nsamp vect)%Z.
Proof.
  unfold read_frvect.
  destruct (name_mismatch vect name_); [discriminate|].
  rewrite dx_nonzero.
  destruct (nsamp vect <=? first)%Z eqn:E; [discriminate|].
  apply Z.leb_gt in E. intros _. split; [reflexivity | lia].
Qed.

End ReadFrVectFacts.

Lemma py_slice_take_drop {A} (arr : list A) (lo hi : Z) :
  (0 <= lo <= Z.of_nat (length arr))%Z ->
  (0 <= hi <= Z.of_nat (length arr))%Z ->
  py_slice arr lo (Some hi) =
  take (Z.to_nat (hi - lo)) (drop (Z.to_nat lo) arr).
Proof.
  intros Hlo Hhi. unfold py_slice.
  rewrite !slice_bound_nonneg by lia.
  rewrite !Z.min_l by lia. reflexivity.
Qed.






Section Trimming.
Local Open Scope Q_scope.
Variables (vect : FrVect) (epoch start end_ : Q) (name_ : option string).
Variable s : Series.
Hypothesis Hdx : 0 < vect_dx vect.
Hypothesis Hend : truthyQ end_ = true.
Hypothesis Hfar : dimstart vect epoch + vect_dx vect <= end_.
Hypothesis Hs : read_frvect vect epoch start end_ name_ = Ok s.

Local Abbreviation dx := (vect_dx vect).
Local Abbreviation first := (nxstart vect epoch start).
Local Abbreviation last := (spec_last_index vect epoch end_).










End Trimming.






(** ** The type mapping table *)

(** C9.  The two tables are inverse bijections between the supported
    element types and the vector type tags: every supported element type
    has a tag whose native type is that element type, and every tag has a
    native type, a supported one, whose tag is that tag. *)
Theorem type_mapping_bijection :
  (forall t : numpy_type,
     In t supported_element_types ->
     exists g : frvect_type,
       tag_for t = Some g /\ native_type_for g = Some t)
  /\ (forall g : frvect_type,
        exists t : numpy_type,
          native_type_for g = Some t /\ tag_for t = Some g /\
          In t supported_element_types)
  /\ (forall (t : numpy_type) (g : frvect_type),
        tag_for t = Some g <-> native_type_for g = Some t).
Proof.
  split; [|split].
  - intros t Ht.
    destruct t; cbn in Ht;
      try (exfalso; intuition discriminate);
      eexists; split; vm_compute; reflexivity.
  - intros g.
    destruct g;
      (eexists; split;
       [vm_compute; reflexivity
       | split; [vm_compute; reflexivity | cbn; tauto]]).
  - intros t g. destruct t, g; vm_compute; split; congruence.
Qed.

Lemma type_mapping_bijection_witness :
  exists g : frvect_type,
    tag_for float64 = Some g /\ native_type_for g = Some float64.
Proof.
  apply (proj1 type_mapping_bijection float64).
  cbn. tauto.
Defined.

(** ** The frame writer *)

Section TimeSets.
Local Open Scope Q_scope.

Lemma time_set_complete (times : list Q) (a : Q) :
  In a times -> exists c, In c (time_set times) /\ a == c.
Proof.
  induction times as [|t rest IH]; intros Ha; [destruct Ha|].
  destruct Ha as [<-|Ha].
  - cbn. destruct (existsb (Qeq_bool t) (time_set rest)) eqn:E.
    + apply existsb_exists in E as (c & Hc & Heq).
      exists c. split; [exact Hc | apply Qeq_bool_eq, Heq].
    + exists t. split; [left; reflexivity | reflexivity].
  - destruct (IH Ha) as (c & Hc & Heq). exists c. split; [|exact Heq].
    cbn. destruct (existsb (Qeq_bool t) (time_set rest));
      [exact Hc | right; exact Hc].
Qed.

Lemma time_set_two (times : list Q) (a b : Q) :
  In a times -> In b times -> ~ a == b ->
  forall c, time_set times <> [c].
Proof.
  intros Ha Hb Hab c Hc.
  destruct (time_set_complete times a Ha) as (ca & Hca & Ea).
  destruct (time_set_complete times b Hb) as (cb & Hcb & Eb).
  rewrite Hc in Hca, Hcb.
  destruct Hca as [<-|[]]. destruct Hcb as [<-|[]].
  apply Hab. rewrite Ea, Eb. reflexivity.
Qed.

Lemma given_or_common_differ (t : option Q) (times : list Q) (m : message)
    (a b : Q) :
  truthy_opt truthyQ t = false ->
  In a times -> In b times -> ~ a == b ->
  given_or_common t times m = inl (RuntimeError m).
Proof.
  intros Ht Ha Hb Hab.
  pose proof (time_set_two times a b Ha Hb Hab) as Hne.
  unfold given_or_common.
  assert (Hm : match time_set times with
               | [c] => inr c
               | _ => inl (RuntimeError m)
               end = (inl (RuntimeError m) : error + Q)).
  { destruct (time_set times) as [|c [|c' r]]; try reflexivity.
    exfalso. apply (Hne c). reflexivity. }
  destruct t as [q|]; [|exact Hm].
  cbn in Ht. rewrite Ht. exact Hm.
Qed.
End TimeSets.

(** C8.  When [write] is given no start and two of the series start at
    different times, it raises the error on different start times, and
    when it is given no end and two of the series end at different times
    it raises that error or the one on different end times; in both cases
    nothing has been done: no frame was created, no channel appended, no
    file written. *)
Theorem write_inconsistent_span_fails
    (crop : TimeSeries -> Q -> Q -> error + TimeSeries)
    (known_detector : string -> bool)
    (tsdict : list (string * TimeSeries)) (outfile : string)
    (start end_ : option Q) (name_ : string)
    (run compression compression_level : Z)
    (k1 k2 : string) (s1 s2 : TimeSeries)
    (H1 : In (k1, s1) tsdict) (H2 : In (k2, s2) tsdict) :
  (truthy_opt truthyQ start = false ->
   ~ (ts_x0 s1 == ts_x0 s2)%Q ->
   write crop known_detector tsdict outfile start end_ name_
         run compression compression_level
   = ([], Raise (RuntimeError DifferentStartTimes)))
  /\ (truthy_opt truthyQ end_ = false ->
      ~ (snd (ts_span s1) == snd (ts_span s2))%Q ->
      exists m : message,
        write crop known_detector tsdict outfile start end_ name_
              run compression compression_level
        = ([], Raise (RuntimeError m)) /\
        (m = DifferentStartTimes \/ m = DifferentEndTimes)).
Proof.
  assert (Hx : forall (f : TimeSeries -> Q) k (s : TimeSeries),
             In (k, s) tsdict ->
             In (f s) (map (fun kv => f (snd kv)) tsdict)).
  { intros f k s Hin.
    apply (in_map (fun kv : string * TimeSeries => f (snd kv))) in Hin.
    exact Hin. }
  split.
  - intros Hst Hne. unfold write.
    rewrite (given_or_common_differ start _ DifferentStartTimes
               (ts_x0 s1) (ts_x0 s2) Hst
               (Hx ts_x0 k1 s1 H1) (Hx ts_x0 k2 s2 H2) Hne).
    reflexivity.
  - intros Hen Hne. unfold write.
    destruct (given_or_common start _ DifferentStartTimes) as [e|st] eqn:Es.
    + exists DifferentStartTimes.
      assert (He : e = RuntimeError DifferentStartTimes).
      { unfold given_or_common in Es.
        destruct start as [q|];
          [destruct (truthyQ q); [discriminate|]|];
          destruct (time_set _) as [|c [|c' r]]; congruence. }
      subst e. split; [reflexivity | left; reflexivity].
    + exists DifferentEndTimes.
      rewrite (given_or_common_differ end_ _ DifferentEndTimes
                 (snd (ts_span s1)) (snd (ts_span s2)) Hen
                 (Hx (fun s => snd (ts_span s)) k1 s1 H1)
                 (Hx (fun s => snd (ts_span s)) k2 s2 H2) Hne).
      split; [reflexivity | right; reflexivity].
Qed.

(** ** The channel-type resolver *)

Section ChannelTypes.
Variable stream : IFrameFStream.

Lemma find_type_priority (name_ : string) (d : gmap string string)
    (c : string) :
  find_type stream name_ ["Sim"; "Proc"; "ADC"] d c =
  match resolve_by_priority stream name_ with
  | Some t => <[c := t]> d
  | None => d
  end.
Proof.
  unfold resolve_by_priority. cbn [find_type].
  change (toc_get stream "Sim") with (toc_Sim stream).
  change (toc_get stream "Proc") with (toc_Proc stream).
  change (toc_get stream "ADC") with (toc_ADC stream).
  change (lower "Sim") with "sim".
  change (lower "Proc") with "proc".
  change (lower "ADC") with "adc".
  repeat case_bool_decide; reflexivity.
Qed.

Lemma resolve_by_priority_lowercase (c t : string) :
  resolve_by_priority stream c = Some t ->
  In t ["sim"; "proc"; "adc"] /\ lower t = t /\ truthy_str t = true.
Proof.
  unfold resolve_by_priority.
  repeat case_bool_decide; intros Hr; inversion Hr; subst;
    (split; [cbn; tauto | split; reflexivity]).
Qed.

Lemma resolve_by_priority_none (c : string) :
  resolve_by_priority stream c = None <->
  (c ∉ toc_Sim stream) /\ (c ∉ toc_Proc stream) /\ (c ∉ toc_ADC stream).
Proof.
  unfold resolve_by_priority.
  repeat case_bool_decide; split; try discriminate; try tauto.
Qed.

Lemma declared_insert_eq (d : gmap string string) (c t : string) :
  truthy_str t = true -> ctype_declared (<[c := t]> d) c = true.
Proof.
  intros Ht. unfold ctype_declared. rewrite lookup_insert_eq. exact Ht.
Qed.

Lemma declared_insert_ne (d : gmap string string) (c x t : string) :
  c <> x -> ctype_declared (<[c := t]> d) x = ctype_declared d x.
Proof.
  intros Hne. unfold ctype_declared. rewrite lookup_insert_ne by exact Hne.
  reflexivity.
Qed.

Lemma unresolvable_insert (d : gmap string string) (c t x : string) :
  resolve_by_priority stream c = Some t ->
  unresolvable stream (<[c := t]> d) x = unresolvable stream d x.
Proof.
  intros Hr. unfold unresolvable.
  destruct (decide (c = x)) as [<-|Hne].
  - rewrite Hr, !andb_false_r. reflexivity.
  - rewrite declared_insert_ne by exact Hne. reflexivity.
Qed.

Lemma find_ext {A} (f g : A -> bool) (l : list A) :
  (forall x, f x = g x) -> find f l = find g l.
Proof.
  intros Hfg. induction l as [|a l IH]; [reflexivity|].
  cbn. rewrite Hfg, IH. reflexivity.
Qed.

(** The loop either stops at the first unresolvable channel, leaving
    every declared type and every key outside the request as it was, or
    returns with every requested channel typed. *)
Lemma get_channel_types_loop_spec (channels : list string) :
  forall d : gmap string string,
    match find (unresolvable stream d) channels with
    | Some c0 =>
        exists d',
          get_channel_types_loop stream channels d
          = (d', Raise (ValueError (ChannelNotInTOC c0))) /\
          (forall c, ctype_declared d c = true \/ c ∉ channels ->
                     d' !! c = d !! c)
    | None =>
        exists d',
          get_channel_types_loop stream channels d = (d', Ok tt) /\
          (forall c, d' !! c = resolved_types stream d channels c)
    end.
Proof.
  induction channels as [|c rest IH]; intros d.
  - cbn. exists d. split; [reflexivity|].
    intros c. unfold resolved_types.
    destruct (ctype_declared d c); [reflexivity|].
    case_bool_decide as Hin; [|reflexivity].
    apply elem_of_nil in Hin. destruct Hin.
  - cbn [find get_channel_types_loop].
    destruct (ctype_declared d c) eqn:Hdecl.
    + (* the type is declared *)
      assert (Hu : unresolvable stream d c = false).
      { unfold unresolvable. rewrite Hdecl. reflexivity. }
      rewrite Hu. cbn [negb]. rewrite Hdecl. cbn [negb].
      specialize (IH d).
      destruct (find (unresolvable stream d) rest) as [c0|].
      * destruct IH as (d' & Hl & Hf). exists d'. split; [exact Hl|].
        intros x [Hx|Hx]; apply Hf; [left; exact Hx|].
        right. intros Hin. apply Hx. right. exact Hin.
      * destruct IH as (d' & Hl & Hr). exists d'. split; [exact Hl|].
        intros x. rewrite Hr. unfold resolved_types.
        destruct (ctype_declared d x) eqn:Hdx; [reflexivity|].
        assert (Hne : c <> x) by congruence.
        repeat case_bool_decide; try reflexivity.
        -- exfalso. rewrite elem_of_cons in *. tauto.
        -- exfalso. rewrite elem_of_cons in *.
           match goal with H : x = c \/ _ |- _ => destruct H end;
             [congruence | tauto].
    + (* the type is looked up *)
      cbn [negb]. rewrite find_type_priority.
      destruct (resolve_by_priority stream c) as [t|] eqn:Hres.
      * assert (Hu : unresolvable stream d c = false).
        { unfold unresolvable. rewrite Hres, andb_false_r. reflexivity. }
        rewrite Hu.
        destruct (resolve_by_priority_lowercase c t Hres) as (_ & _ & Ht).
        rewrite (declared_insert_eq d c t Ht). cbn [negb].
        specialize (IH (<[c := t]> d)).
        rewrite (find_ext _ (unresolvable stream d)) in IH
          by (intros x; apply unresolvable_insert; exact Hres).
        destruct (find (unresolvable stream d) rest) as [c0|].
        -- destruct IH as (d' & Hl & Hf). exists d'. split; [exact Hl|].
           intros x Hx.
           assert (Hne : c <> x).
           { intros <-. destruct Hx as [Hx|Hx]; [congruence|].
             apply Hx. left. }
           rewrite Hf.
           ++ apply lookup_insert_ne. exact Hne.
           ++ destruct Hx as [Hx|Hx].
              ** left. rewrite declared_insert_ne by exact Hne. exact Hx.
              ** right. intros Hin. apply Hx. right. exact Hin.
        -- destruct IH as (d' & Hl & Hr). exists d'. split; [exact Hl|].
           intros x. rewrite Hr. unfold resolved_types.
           destruct (decide (c = x)) as [<-|Hne].
           ++ rewrite (declared_insert_eq d c t Ht), Hdecl.
              rewrite lookup_insert_eq.
              case_bool_decide as Hin; [symmetry; exact Hres|].
              exfalso. apply Hin. left.
           ++ rewrite declared_insert_ne, lookup_insert_ne by exact Hne.
              destruct (ctype_declared d x); [reflexivity|].
              repeat case_bool_decide; try reflexivity.
              ** exfalso. rewrite elem_of_cons in *. tauto.
              ** exfalso. rewrite elem_of_cons in *.
                 match goal with H : x = c \/ _ |- _ => destruct H end;
                   [congruence | tauto].
      * assert (Hu : unresolvable stream d c = true).
        { unfold unresolvable. rewrite Hdecl, Hres. reflexivity. }
        rewrite Hu, Hdecl. cbn [negb].
        exists d. split; [reflexivity | reflexivity].
Qed.
End ChannelTypes.

Lemma unresolvable_spec (stream : IFrameFStream) (d : gmap string string)
    (c : string) :
  unresolvable stream d c = true <->
  ctype_declared d c = false /\
  (c ∉ toc_Sim stream) /\ (c ∉ toc_Proc stream) /\ (c ∉ toc_ADC stream).
Proof.
  unfold unresolvable. rewrite <- resolve_by_priority_none.
  destruct (ctype_declared d c), (resolve_by_priority stream c);
    cbn; split; try tauto; try discriminate; intros [? ?]; discriminate.
Qed.

Lemma resolved_types_requested (stream : IFrameFStream)
    (d : gmap string string) (channels : list string) (c : string) :
  find (unresolvable stream d) channels = None ->
  c ∈ channels -> ctype_declared d c = false ->
  exists t, resolve_by_priority stream c = Some t /\
            resolved_types stream d channels c = Some t.
Proof.
  intros Hfind Hin Hdecl.
  assert (Hu : unresolvable stream d c = false).
  { apply list_elem_of_In in Hin.
    exact (find_none _ _ Hfind c Hin). }
  unfold unresolvable in Hu. rewrite Hdecl in Hu. cbn in Hu.
  unfold resolved_types. rewrite Hdecl, bool_decide_true by exact Hin.
  destruct (resolve_by_priority stream c) as [t|]; [|discriminate].
  exists t. split; reflexivity.
Qed.

(** C7.  [get_channel_types] works on the caller's dict when it is given
    and not empty, and on a new empty dict otherwise.  It raises the
    channel-not-found error for the first requested channel that has no
    declared type and is in none of the Sim, Proc and ADC lists; when
    there is no such channel it returns the dict, in which every
    requested channel without a declared type has the type found by
    looking in the Sim list, else the Proc list, else the ADC list, and
    every declared type is kept. *)
Theorem get_channel_types_priority
    (h : heap) (stream : IFrameFStream) (channels : list string)
    (ctype : option loc) :
  let h0 := fst (ctype_or_new h ctype) in
  let l := snd (ctype_or_new h ctype) in
  let d0 : gmap string string := h0 !!! l in
  (forall c : string,
     unresolvable stream d0 c = true <->
     ctype_declared d0 c = false /\
     (c ∉ toc_Sim stream) /\ (c ∉ toc_Proc stream) /\ (c ∉ toc_ADC stream))
  /\ match find (unresolvable stream d0) channels with
     | Some c0 =>
         exists d' : gmap string string,
           get_channel_types h stream channels ctype
           = (<[l := d']> h0, Raise (ValueError (ChannelNotInTOC c0)))
     | None =>
         exists d' : gmap string string,
           get_channel_types h stream channels ctype
           = (<[l := d']> h0, Ok l) /\
           (forall c : string,
              c ∈ channels -> ctype_declared d0 c = false ->
              exists t : string,
                resolve_by_priority stream c = Some t /\
                d' !! c = Some t) /\
           (forall c : string,
              ctype_declared d0 c = true -> d' !! c = d0 !! c)
     end.
Proof.
  intros h0 l d0. split; [intros c; apply unresolvable_spec|].
  unfold get_channel_types.
  destruct (ctype_or_new h ctype) as [h0' l'] eqn:E.
  cbn [fst snd] in h0, l. subst h0 l. fold d0.
  pose proof (get_channel_types_loop_spec stream channels d0) as Hloop.
  destruct (find (unresolvable stream d0) channels) as [c0|] eqn:Hfind.
  - destruct Hloop as (d' & -> & _). exists d'. reflexivity.
  - destruct Hloop as (d' & -> & Hr). exists d'. split; [reflexivity|].
    split.
    + intros c Hin Hdecl.
      destruct (resolved_types_requested stream d0 channels c Hfind Hin Hdecl)
        as (t & Ht & Hrt).
      exists t. split; [exact Ht|]. rewrite Hr. exact Hrt.
    + intros c Hdecl. rewrite Hr. unfold resolved_types.
      rewrite Hdecl. reflexivity.
Qed.


(** ** The channel-record decoder *)

Lemma read_frdata_vectors_all_skip
    (series_append : Series -> option Series -> error + Series)
    (start end_ : Q) (name_ : option string) (datastart : Q)
    (vects : list FrVect) (out : option Series) :
  Forall (fun v => read_frvect v datastart start end_ name_ = Skip) vects ->
  read_frdata_vectors series_append start end_ name_ datastart vects out
  = Ok out.
Proof.
  induction 1 as [|v rest Hv _ IH]; [reflexivity|].
  cbn. rewrite Hv. exact IH.
Qed.

(** A record that passes the overlap test and whose vectors all skip
    makes [read_frdata] return [None]; it does not raise [_Skip]. *)
Lemma read_frdata_all_skip
    (series_append : Series -> option Series -> error + Series)
    (epoch start end_ : Q) (name_ : option string) (frdata : FrData) :
  read_frdata series_append epoch start end_ name_ frdata <> Skip ->
  Forall (fun v => read_frvect v (epoch + frdata_timeOffset frdata)%Q
                               start end_ name_ = Skip)
         (frdata_data frdata) ->
  read_frdata series_append epoch start end_ name_ frdata = Ok None.
Proof.
  unfold read_frdata. intros Hns Hall.
  destruct (_ || _); [congruence|].
  apply read_frdata_vectors_all_skip. exact Hall.
Qed.

(** C3 (the code at the failing input).  The processed record of
    [half.gwf] holds [100, 105); for the request [105, 120) its only
    vector skips, and [read_frdata] returns [None] instead of raising
    [_Skip]; [read_gwf] then stores a zero-dimensional array for the
    channel and fails with [AttributeError] on its [span]. *)
Theorem read_frdata_all_vectors_skipped_returns_none :
  Forall (fun v => read_frvect v 100 105 120 (Some "X1:TEST") = Skip)
         (frdata_data frdata_half)
  /\ read_frdata series_append_spec 100 105 120 (Some "X1:TEST") frdata_half
     = Ok None
  /\ snd (read_gwf series_append_spec span_contains_spec open_example
                   ∅ "half.gwf" ["X1:TEST"] (Some 105%Q) (Some 120%Q) None)
     = Raise AttributeError.
Proof.
  split; [|split].
  - repeat constructor.
  - vm_compute. reflexivity.
  - vm_compute. reflexivity.
Qed.

(** ** The frame reader *)

Section FrameReader.
Variable series_append : Series -> option Series -> error + Series.
Variable span_contains : Q -> Q -> Series -> bool.
Variable open_gwf : string -> error + IFrameFStream.

Lemma dict_get_in {K V} `{EqDecision K} (k : K) (v : V) (d : list (K * V)) :
  In (k, v) d -> exists v', Dict.get k d = Some v'.
Proof.
  induction d as [|[k' v'] r IH]; intros Hin; [destruct Hin|].
  cbn. destruct (decide (k = k')); [eauto|].
  destruct Hin as [Heq|Hin]; [congruence | exact (IH Hin)].
Qed.

Lemma dict_get_some_in {K V} `{EqDecision K} (k : K) (v : V)
    (d : list (K * V)) :
  Dict.get k d = Some v -> In (k, v) d.
Proof.
  induction d as [|[k' v'] r IH]; [discriminate|].
  cbn. destruct (decide (k = k')) as [->|].
  - intros [= ->]. left. reflexivity.
  - intros Hg. right. exact (IH Hg).
Qed.

(** The test of line 218 succeeds exactly when every object in the dict
    is a series that covers the span. *)
Lemma all_span_covered_true (start end_ : Q)
    (items : list (string * pyobj)) :
  all_span_covered span_contains start end_ items = inr true <->
  Forall (fun kv => exists s, snd kv = SeriesObj s /\
                              span_contains start end_ s = true) items.
Proof.
  induction items as [|[c obj] rest IH]; cbn.
  - split; [constructor | reflexivity].
  - destruct obj as [s|].
    + destruct (span_contains start end_ s) eqn:Hc.
      * rewrite IH. split.
        -- intros H. constructor; [exists s; auto | exact H].
        -- intros H. inversion H. assumption.
      * split; [discriminate|].
        intros H. inversion H as [|? ? (s' & Hs' & Hc') _]; subst.
        cbn in Hs'. injection Hs' as <-. congruence.
    + split; [discriminate|].
      intros H. inversion H as [|? ? (s' & Hs' & _) _]; subst.
      discriminate.
Qed.

Lemma read_channels_not_skip (frame : FrameH) (ctype : gmap string string)
    (epoch start end_ : Q) (channels : list string) :
  forall out,
    read_channels series_append frame ctype epoch start end_ channels out
    <> Skip.
Proof.
  induction channels as [|c rest IH]; intros out; cbn; [discriminate|].
  destruct (ctype !! c); [|discriminate].
  destruct (_read_channel _ _ _ _ _ _ _); [|apply IH|discriminate].
  destruct (append_or_set _ _ _ _); [discriminate | apply IH].
Qed.

Lemma read_frames_not_skip (nframes : nat) (ctype : gmap string string)
    (channels : list string) (start end_ : Q) (frames : list FrameH) :
  forall this out,
    read_frames series_append span_contains nframes ctype channels
                start end_ this frames out <> Skip.
Proof.
  induction frames as [|f rest IH]; intros this out; cbn.
  - destruct (_ <=? _)%nat; discriminate.
  - destruct (negb _); [apply IH|].
    pose proof (read_channels_not_skip f ctype (frame_GTime f) start end_
                  channels out) as Hns.
    destruct (read_channels _ _ _ _ _ _ _ _) as [out'| |]; try congruence.
    destruct (all_span_covered _ _ _ _) as [e|[|]];
      [discriminate | discriminate | apply IH].
Qed.

Lemma read_frames_early_exit (nframes : nat) (ctype : gmap string string)
    (channels : list string) (start end_ : Q) (frames : list FrameH) :
  forall this out out',
    read_frames series_append span_contains nframes ctype channels
                start end_ this frames out = Ok (out', EarlyExit) ->
    all_span_covered span_contains start end_ out' = inr true.
Proof.
  induction frames as [|f rest IH]; intros this out out'; cbn.
  - destruct (_ <=? _)%nat; discriminate.
  - destruct (negb _); [apply IH|].
    destruct (read_channels _ _ _ _ _ _ _ _) as [o| |]; try discriminate.
    destruct (all_span_covered _ _ _ o) as [e|[|]] eqn:Hall.
    + discriminate.
    + intros [= <-]. exact Hall.
    + apply IH.
Qed.

Lemma check_channels_read_ok (filename : string) (start end_ : Q)
    (channels : list string) (out : list (string * pyobj)) :
  check_channels_read filename start end_ channels out <> Skip /\
  (forall u, check_channels_read filename start end_ channels out = Ok u ->
             forall c, c ∈ channels -> is_Some (Dict.get c out)).
Proof.
  induction channels as [|c rest [IH1 IH2]]; cbn.
  - split; [discriminate|]. intros _ _ c Hc.
    apply elem_of_nil in Hc. destruct Hc.
  - destruct (Dict.get c out) as [obj|] eqn:Hg.
    + split; [exact IH1|]. intros u Hu x Hx.
      apply elem_of_cons in Hx as [->|Hx]; [rewrite Hg; eauto|].
      exact (IH2 u Hu x Hx).
    + split; discriminate.
Qed.

Lemma get_channel_types_not_skip (h : heap) (stream : IFrameFStream)
    (channels : list string) (ctype : option loc) :
  snd (get_channel_types h stream channels ctype) <> Skip.
Proof.
  unfold get_channel_types.
  destruct (ctype_or_new h ctype) as [h0 l].
  pose proof (get_channel_types_loop_spec stream channels (h0 !!! l)) as H.
  destruct (find _ channels); destruct H as (d' & -> & _); discriminate.
Qed.

(** What [read_gwf_traced] returns when it returns. *)
Lemma read_gwf_traced_ok (h : heap) (filename : string)
    (channels : list string) (start end_ : option Q) (ctype : option loc)
    (out : list (string * pyobj)) (how : loop_exit) :
  snd (read_gwf_traced series_append span_contains open_gwf
                       h filename channels start end_ ctype)
  = Ok (out, how) ->
  (forall c, c ∈ channels -> is_Some (Dict.get c out)) /\
  (how = EarlyExit ->
   all_span_covered span_contains (or_zero start) (or_zero end_) out
   = inr true).
Proof.
  unfold read_gwf_traced.
  destruct (open_gwf filename) as [e|stream]; [discriminate|].
  destruct (get_channel_types h stream channels ctype) as [h' [l| |e]];
    [|discriminate..].
  cbn [snd].
  destruct (read_frames _ _ _ _ _ _ _ _ _ _) as [[o hw]| |] eqn:Hrf;
    [|discriminate..].
  destruct (check_channels_read_ok filename (or_zero start) (or_zero end_)
              channels o) as [_ Hchk].
  destruct (check_channels_read _ _ _ _ _) as [u| |] eqn:Hc;
    [|discriminate..].
  intros [= <- <-]. split.
  - exact (Hchk u eq_refl).
  - intros ->. eapply read_frames_early_exit. exact Hrf.
Qed.

Lemma read_gwf_traced_not_skip (h : heap) (filename : string)
    (channels : list string) (start end_ : option Q) (ctype : option loc) :
  snd (read_gwf_traced series_append span_contains open_gwf
                       h filename channels start end_ ctype) <> Skip.
Proof.
  unfold read_gwf_traced.
  destruct (open_gwf filename) as [e|stream]; [discriminate|].
  pose proof (get_channel_types_not_skip h stream channels ctype) as Hg.
  destruct (get_channel_types h stream channels ctype) as [h' [l| |e]];
    cbn [snd] in *; [|congruence|discriminate].
  pose proof (read_frames_not_skip (stream_nframes stream) (h' !!! l)
                channels (or_zero start) (or_zero end_)
                (stream_frames stream) 0%nat []) as Hrf.
  destruct (read_frames _ _ _ _ _ _ _ _ _ _) as [[o hw]| |];
    [|congruence|discriminate].
  destruct (check_channels_read_ok filename (or_zero start) (or_zero end_)
              channels o) as [Hns _].
  destruct (check_channels_read _ _ _ _ _); [discriminate|congruence|discriminate].
Qed.

(** The private skip signal never leaves [read_gwf]. *)
Lemma read_gwf_not_skip (h : heap) (filename : string)
    (channels : list string) (start end_ : option Q) (ctype : option loc) :
  snd (read_gwf series_append span_contains open_gwf
                h filename channels start end_ ctype) <> Skip.
Proof.
  unfold read_gwf.
  pose proof (read_gwf_traced_not_skip h filename channels start end_ ctype)
    as H.
  destruct (read_gwf_traced _ _ _ _ _ _ _ _ _) as [h' [[o hw]| |e]];
    cbn [snd] in *; [discriminate|congruence|discriminate].
Qed.
End FrameReader.

Lemma write_inconsistent_span_fails_witness :
  write (fun ts _ _ => inr ts) (fun _ => true)
        [("a", ts_from 100); ("b", ts_from 105)] "out.gwf"
        None None "gwpy" 0 257 6
  = ([], Raise (RuntimeError DifferentStartTimes)).
Proof.
  refine (proj1 (write_inconsistent_span_fails
                   (fun ts _ _ => inr ts) (fun _ => true)
                   [("a", ts_from 100); ("b", ts_from 105)] "out.gwf"
                   None None "gwpy" 0 257 6
                   "a" "b" (ts_from 100) (ts_from 105) _ _) _ _).
  - left. reflexivity.
  - right. left. reflexivity.
  - reflexivity.
  - intros E. vm_compute in E. discriminate.
Defined.


(** * Further properties of the code *)

(** ** The vector decoder, continued *)

Section Rounding2.
Local Open Scope Q_scope.

Lemma truthyZ_pos (z : Z) : (0 < z)%Z -> truthyZ z = true.
Proof.
  intros H. unfold truthyZ. destruct (Z.eqb_spec z 0); [lia | reflexivity].
Qed.
End Rounding2.

Section WholeVector.
Local Open Scope Q_scope.
Variables (vect : FrVect) (epoch start end_ : Q) (name_ : option string).
Hypothesis Hdx : 0 < vect_dx vect.

(** A request that starts before the end of the first sample has first
    index 0. *)
Lemma nxstart_zero :
  start < dimstart vect epoch + vect_dx vect ->
  nxstart vect epoch start = 0%Z.
Proof.
  intros Hst.
  pose proof (nxstart_nonneg vect epoch start Hdx) as H0.
  destruct (nxstart_bounds vect epoch start Hdx) as [Hl _].
  destruct (Z_le_gt_dec (nxstart vect epoch start) 0) as [|Hgt]; [lia|].
  exfalso.
  assert (H1 : (1 <= nxstart vect epoch start)%Z) by lia.
  apply (steps_le _ _ (vect_dx vect) Hdx) in H1.
  change (inject_Z 1) with 1 in H1.
  destruct (Q.max_spec 0 (start - dimstart vect epoch)) as [[_ E]|[_ E]];
    rewrite E in Hl; lra.
Qed.

(** A request that ends at or after the end of the vector has last index
    [nsamp]. *)
Lemma last_index_full :
  dimend vect epoch <= end_ ->
  spec_last_index vect epoch end_ = nsamp vect.
Proof.
  intros He. unfold spec_last_index.
  assert (E : Qmax 0 (dimend vect epoch - end_) / vect_dx vect == 0).
  { rewrite Q.max_l by lra. field. lra. }
  rewrite E. change (Qceiling 0) with 0%Z. lia.
Qed.

End WholeVector.

(** X1.  A call that returns a fragment returns a run of the vector's own
    samples: the fragment starts at the first index, which is a valid
    index, its samples are the vector's samples from there on, its start
    time and spacing put every sample at the time it has in the vector,
    and its span lies inside the vector's span. *)
Theorem read_frvect_fragment_is_run
    (vect : FrVect) (epoch start end_ : Q) (name_ : option string)
    (s : Series)
    (Hdx : (0 < vect_dx vect)%Q)
    (Hs : read_frvect vect epoch start end_ name_ = Ok s) :
  (0 <= nxstart vect epoch start < nsamp vect)%Z
  /\ t0 s = (dimstart vect epoch
             + inject_Z (nxstart vect epoch start) * vect_dx vect)%Q
  /\ dt s = vect_dx vect
  /\ name s = vect_name vect
  /\ (forall (i : nat) (x : sample),
        value s !! i = Some x ->
        vect_data vect !! (Z.to_nat (nxstart vect epoch start) + i)%nat
        = Some x)
  /\ (dimstart vect epoch <= t0 s)%Q
  /\ (t0 s + inject_Z (Z.of_nat (length (value s))) * dt s
      <= dimend vect epoch)%Q.
Proof.
  destruct (read_frvect_inv _ _ _ _ _ Hdx _ Hs) as [Hn Hlt].
  pose proof (nxstart_nonneg vect epoch start Hdx) as H0.
  rewrite (read_frvect_ok _ _ _ _ _ Hdx Hn Hlt) in Hs.
  injection Hs as <-. cbn [value t0 dt name].
  split; [lia|]. split; [reflexivity|]. split; [reflexivity|].
  split; [reflexivity|].
  set (first := nxstart vect epoch start) in *.
  assert (Hlook : forall (i : nat) (x : sample),
            (if truthyZ first || truthy_opt truthyZ (nxend vect epoch end_)
             then py_slice (vect_data vect) first (nxend vect epoch end_)
             else vect_data vect) !! i = Some x ->
            vect_data vect !! (Z.to_nat first + i)%nat = Some x).
  { intros i x.
    destruct (truthyZ first || truthy_opt truthyZ (nxend vect epoch end_))
      eqn:Hc.
    - apply py_slice_lookup. exact H0.
    - apply orb_false_iff in Hc as [Hc _].
      unfold truthyZ in Hc. apply negb_false_iff, Z.eqb_eq in Hc.
      rewrite Hc. cbn. auto. }
  assert (Hlen : (length
            (if truthyZ first || truthy_opt truthyZ (nxend vect epoch end_)
             then py_slice (vect_data vect) first (nxend vect epoch end_)
             else vect_data vect)
            <= length (vect_data vect) - Z.to_nat first)%nat).
  { destruct (truthyZ first || truthy_opt truthyZ (nxend vect epoch end_))
      eqn:Hc.
    - apply py_slice_length_le. exact H0.
    - apply orb_false_iff in Hc as [Hc _].
      unfold truthyZ in Hc. apply negb_false_iff, Z.eqb_eq in Hc.
      rewrite Hc. cbn. lia. }
  split; [exact Hlook|]. split.
  - assert (H1 : (inject_Z 0 * vect_dx vect
                  <= inject_Z first * vect_dx vect)%Q)
      by (apply steps_le; [exact Hdx | lia]).
    change (inject_Z 0) with 0%Q in H1. lra.
  - revert Hlen.
    generalize (length
      (if truthyZ first || truthy_opt truthyZ (nxend vect epoch end_)
       then py_slice (vect_data vect) first (nxend vect epoch end_)
       else vect_data vect)).
    intros n Hlen. unfold dimend.
    assert (H1 : (first + Z.of_nat n <= nsamp vect)%Z)
      by (unfold nsamp in *; lia).
    apply (steps_le _ _ (vect_dx vect) Hdx) in H1.
    rewrite inject_Z_plus in H1. lra.
Qed.

Lemma read_frvect_fragment_is_run_witness :
  t0 {| value := [3; 4; 5; 6]; t0 := 103; dt := 1;
        name := "X1:TEST"; channel := "X1:TEST"; unit := Some "m" |}
  = (dimstart vect_100_110 100
     + inject_Z (nxstart vect_100_110 100 103) * vect_dx vect_100_110)%Q.
Proof.
  assert (Hdx : (0 < vect_dx vect_100_110)%Q) by reflexivity.
  refine (proj1 (proj2 (read_frvect_fragment_is_run
                          vect_100_110 100 103 107 (Some "X1:TEST") _
                          Hdx _))).
  vm_compute. reflexivity.
Defined.

(** A request that covers the vector gets it whole. *)
Lemma read_frvect_whole
    (vect : FrVect) (epoch start end_ : Q) (name_ : option string)
    (Hdx : (0 < vect_dx vect)%Q)
    (Hname : name_mismatch vect name_ = false)
    (Hdata : vect_data vect <> [])
    (Hstart : (start <= dimstart vect epoch)%Q)
    (Hend : truthyQ end_ = false \/ (dimend vect epoch <= end_)%Q) :
  exists s : Series,
    read_frvect vect epoch start end_ name_ = Ok s /\
    value s = vect_data vect /\
    (t0 s == dimstart vect epoch)%Q /\
    dt s = vect_dx vect.
Proof.
  assert (Hn : (0 < nsamp vect)%Z).
  { unfold nsamp. destruct (vect_data vect); [congruence | cbn; lia]. }
  assert (Hf : nxstart vect epoch start = 0%Z)
    by (apply nxstart_zero; [exact Hdx | lra]).
  eexists. split.
  { apply read_frvect_ok; [exact Hdx | exact Hname | lia]. }
  cbn [value t0 dt]. rewrite Hf. split; [|split; [|reflexivity]].
  - destruct (truthyQ end_) eqn:Ht.
    + destruct Hend as [Hend|Hend]; [discriminate|].
      rewrite (nxend_bounded vect epoch end_ Ht).
      rewrite (last_index_full vect epoch end_ Hdx Hend).
      cbn [truthy_opt]. rewrite (truthyZ_pos _ Hn), orb_true_r.
      unfold nsamp. rewrite py_slice_take_drop by lia.
      rewrite Z.sub_0_r, Nat2Z.id. cbn [Z.to_nat drop].
      apply take_ge. lia.
    + rewrite (nxend_unbounded vect epoch end_ Ht). reflexivity.
  - change (inject_Z 0) with 0%Q. lra.
Qed.

(** X2.  A request that starts at or before the vector's start and has
    no end, or ends at or after the vector's end, gets the whole vector:
    all its samples, from its own start time. *)
Theorem read_frvect_covering_request
    (vect : FrVect) (epoch start end_ : Q) (name_ : option string)
    (Hdx : (0 < vect_dx vect)%Q)
    (Hname : name_mismatch vect name_ = false)
    (Hdata : vect_data vect <> [])
    (Hstart : (start <= dimstart vect epoch)%Q)
    (Hend : truthyQ end_ = false \/ (dimend vect epoch <= end_)%Q) :
  exists s : Series,
    read_frvect vect epoch start end_ name_ = Ok s /\
    value s = vect_data vect /\
    (t0 s == dimstart vect epoch)%Q /\
    dt s = vect_dx vect.
Proof.
  exact (read_frvect_whole vect epoch start end_ name_
           Hdx Hname Hdata Hstart Hend).
Qed.

Lemma read_frvect_covering_request_witness :
  exists s : Series,
    read_frvect vect_100_110 100 95 120 (Some "X1:TEST") = Ok s /\
    value s = [0; 1; 2; 3; 4; 5; 6; 7; 8; 9].
Proof.
  destruct (read_frvect_covering_request
              vect_100_110 100 95 120 (Some "X1:TEST"))
    as (s & Hs & Hv & _).
  - reflexivity.
  - reflexivity.
  - discriminate.
  - vm_compute. discriminate.
  - right. vm_compute. discriminate.
  - exists s. split; [exact Hs | exact Hv].
Defined.



Section Adjacent.
Local Open Scope Q_scope.
Variables (vect : FrVect) (epoch : Q).
Hypothesis Hdx : 0 < vect_dx vect.

Lemma quotient_mono (a b : Q) :
  a <= b ->
  Qmax 0 a / vect_dx vect <= Qmax 0 b / vect_dx vect.
Proof.
  intros Hab. unfold Qdiv. apply Qmult_le_compat_r.
  - apply Q.max_le_compat_l. exact Hab.
  - apply Qlt_le_weak, Qinv_lt_0_compat, Hdx.
Qed.

(** A later start never has a smaller first index, and a later end never
    has a smaller last index. *)
Lemma nxstart_mono (t1 t2 : Q) :
  t1 <= t2 -> (nxstart vect epoch t1 <= nxstart vect epoch t2)%Z.
Proof.
  intros H.
  rewrite (nxstart_floor vect epoch t1 Hdx), (nxstart_floor vect epoch t2 Hdx).
  unfold spec_first_index. apply Qfloor_resp_le, quotient_mono. lra.
Qed.

Lemma last_index_mono (t1 t2 : Q) :
  t1 <= t2 ->
  (spec_last_index vect epoch t1 <= spec_last_index vect epoch t2)%Z.
Proof.
  intros H. unfold spec_last_index.
  assert (Hc : (Qceiling (Qmax 0 (dimend vect epoch - t2) / vect_dx vect)
                <= Qceiling (Qmax 0 (dimend vect epoch - t1) / vect_dx vect))%Z)
    by (apply Qceiling_resp_le, quotient_mono; lra).
  lia.
Qed.
End Adjacent.

(** X4.  Two requests that meet at [mid] split what the request over
    both returns, whenever the code computes for [mid] the same index
    as the last index of the first request and as the first index of the
    second, as it does, the quotient being exact, for a [mid] on the
    vector's sample grid: the fragment for [start, mid) followed by the
    fragment for [mid, end) is the fragment for [start, end), no sample
    lost and none read twice, and the second fragment starts at the
    sample of that index. *)
Theorem read_frvect_adjacent_requests
    (vect : FrVect) (epoch start mid end_ : Q) (name_ : option string)
    (k : Z)
    (Hdx : (0 < vect_dx vect)%Q)
    (Hname : name_mismatch vect name_ = false)
    (Hk : (1 <= k < nsamp vect)%Z)
    (Hfirst : nxstart vect epoch mid = k)
    (Hlast : nxend vect epoch mid = Some k)
    (Hsm : (start <= mid)%Q)
    (Hme : truthyQ end_ = false \/ (mid <= end_)%Q) :
  exists a b f : Series,
    read_frvect vect epoch start mid name_ = Ok a /\
    read_frvect vect epoch mid end_ name_ = Ok b /\
    read_frvect vect epoch start end_ name_ = Ok f /\
    value f = (value a ++ value b)%list /\
    t0 f = t0 a /\
    t0 b = (dimstart vect epoch + inject_Z k * vect_dx vect)%Q.
Proof.
  assert (Hset : truthyQ mid = true).
  { unfold nxend in Hlast. destruct (truthyQ mid); [reflexivity|discriminate]. }
  assert (Hlk : spec_last_index vect epoch mid = k).
  { rewrite (nxend_bounded vect epoch mid Hset) in Hlast. congruence. }
  pose proof (nxstart_mono vect epoch Hdx start mid Hsm) as Hpk.
  rewrite Hfirst in Hpk.
  pose proof (nxstart_nonneg vect epoch start Hdx) as Hp0.
  set (p := nxstart vect epoch start) in *.
  do 3 eexists.
  split; [apply read_frvect_ok; [exact Hdx | exact Hname | fold p; lia]|].
  split; [apply read_frvect_ok; [exact Hdx | exact Hname | lia]|].
  split; [apply read_frvect_ok; [exact Hdx | exact Hname | fold p; lia]|].
  cbn [value t0]. fold p. rewrite Hfirst.
  split; [|split; reflexivity].
  rewrite Hlast. cbn [truthy_opt].
  rewrite (truthyZ_pos k) by lia. rewrite !orb_true_r. cbn [orb].
  assert (Ha : py_slice (vect_data vect) p (Some k)
               = take (Z.to_nat (k - p)) (drop (Z.to_nat p) (vect_data vect)))
    by (apply py_slice_take_drop; unfold nsamp in Hk; lia).
  rewrite Ha.
  assert (Hdrop : drop (Z.to_nat k) (vect_data vect)
                  = drop (Z.to_nat (k - p))
                         (drop (Z.to_nat p) (vect_data vect))).
  { rewrite drop_drop. f_equal. lia. }
  destruct (truthyQ end_) eqn:Ht.
  - destruct Hme as [Hme|Hme]; [discriminate|].
    pose proof (last_index_mono vect epoch Hdx mid end_ Hme) as HkL.
    rewrite Hlk in HkL.
    pose proof (last_le_nsamp vect epoch end_ Hdx) as HLn.
    rewrite (nxend_bounded vect epoch end_ Ht). cbn [truthy_opt].
    set (L := spec_last_index vect epoch end_) in *.
    rewrite (truthyZ_pos L) by lia. rewrite orb_true_r.
    rewrite !py_slice_take_drop by (unfold nsamp in *; lia).
    rewrite Hdrop, take_take_drop. f_equal. lia.
  - rewrite (nxend_unbounded vect epoch end_ Ht). cbn [truthy_opt].
    rewrite orb_false_r.
    rewrite (py_slice_open _ k) by lia. rewrite Hdrop, take_drop.
    destruct (truthyZ p) eqn:Hp.
    + apply py_slice_open. exact Hp0.
    + unfold truthyZ in Hp. apply negb_false_iff, Z.eqb_eq in Hp.
      rewrite Hp. reflexivity.
Qed.

Lemma read_frvect_adjacent_requests_witness :
  exists a b f : Series,
    read_frvect vect_100_110 100 101 104 (Some "X1:TEST") = Ok a /\
    read_frvect vect_100_110 100 104 108 (Some "X1:TEST") = Ok b /\
    read_frvect vect_100_110 100 101 108 (Some "X1:TEST") = Ok f /\
    value f = (value a ++ value b)%list.
Proof.
  destruct (read_frvect_adjacent_requests
              vect_100_110 100 101 104 108 (Some "X1:TEST") 4)
    as (a & b & f & Ha & Hb & Hf & Hv & _).
  - reflexivity.
  - reflexivity.
  - vm_compute. split; [discriminate | reflexivity].
  - vm_compute. reflexivity.
  - vm_compute. reflexivity.
  - vm_compute. discriminate.
  - right. vm_compute. discriminate.
  - exists a, b, f. auto.
Defined.

(** ** The channel-record decoder, continued *)

Section RecordDecoder.
Variable series_append : Series -> option Series -> error + Series.
Variables (start end_ : Q) (name_ : option string).

Lemma read_frvect_mismatch (v : FrVect) (datastart : Q) :
  name_mismatch v name_ = true ->
  read_frvect v datastart start end_ name_ = Skip.
Proof. intros H. unfold read_frvect. rewrite H. reflexivity. Qed.

Lemma read_frdata_vectors_filter (datastart : Q) (vects : list FrVect) :
  forall out,
    read_frdata_vectors series_append start end_ name_ datastart vects out
    = read_frdata_vectors series_append start end_ name_ datastart
        (List.filter (fun v => negb (name_mismatch v name_)) vects) out.
Proof.
  induction vects as [|v rest IH]; intros out; [reflexivity|].
  cbn [List.filter]. destruct (name_mismatch v name_) eqn:Hm; cbn [negb].
  - cbn [read_frdata_vectors].
    rewrite (read_frvect_mismatch v datastart Hm). apply IH.
  - cbn [read_frdata_vectors].
    destruct (read_frvect v datastart start end_ name_) as [new| |e];
      [|apply IH|reflexivity].
    destruct out as [o|]; [|apply IH].
    destruct (series_append o (Some new)); [reflexivity | apply IH].
Qed.

Lemma read_frdata_vectors_not_skip (datastart : Q) (vects : list FrVect) :
  forall out,
    read_frdata_vectors series_append start end_ name_ datastart vects out
    <> Skip.
Proof.
  induction vects as [|v rest IH]; intros out; cbn; [discriminate|].
  destruct (read_frvect v datastart start end_ name_) as [new| |e];
    [|apply IH|discriminate].
  destruct out as [o|]; [|apply IH].
  destruct (series_append o (Some new)); [discriminate | apply IH].
Qed.

Lemma read_frdata_vectors_some (datastart : Q) (vects : list FrVect) :
  forall o,
    read_frdata_vectors series_append start end_ name_ datastart vects
                        (Some o) <> Ok None.
Proof.
  induction vects as [|v rest IH]; intros o; cbn; [discriminate|].
  destruct (read_frvect v datastart start end_ name_) as [new| |e];
    [|apply IH|discriminate].
  destruct (series_append o (Some new)); [discriminate | apply IH].
Qed.

Lemma read_frdata_vectors_none (datastart : Q) (vects : list FrVect) :
  read_frdata_vectors series_append start end_ name_ datastart vects None
  = Ok None ->
  Forall (fun v => read_frvect v datastart start end_ name_ = Skip) vects.
Proof.
  induction vects as [|v rest IH]; cbn; [constructor|].
  destruct (read_frvect v datastart start end_ name_) as [new| |e] eqn:Hv.
  - intros H. exfalso. exact (read_frdata_vectors_some _ _ _ H).
  - intros H. constructor; [exact Hv | exact (IH H)].
  - discriminate.
Qed.
End RecordDecoder.

(** X5.  Vectors of a record that carry another name than the requested
    one play no part: [read_frdata] gives the same result on the record
    with those vectors removed. *)
Theorem read_frdata_ignores_foreign_vectors
    (series_append : Series -> option Series -> error + Series)
    (epoch start end_ : Q) (name_ : option string) (frdata : FrData) :
  read_frdata series_append epoch start end_ name_ frdata
  = read_frdata series_append epoch start end_ name_
      {| frdata_timeOffset := frdata_timeOffset frdata;
         frdata_tRange := frdata_tRange frdata;
         frdata_data :=
           List.filter (fun v => negb (name_mismatch v name_))
                       (frdata_data frdata) |}.
Proof.
  unfold read_frdata. cbn [frdata_timeOffset frdata_tRange frdata_data].
  destruct (_ || _); [reflexivity|].
  apply read_frdata_vectors_filter.
Qed.

(** X6.  [read_frdata] raises the skip signal exactly when the record
    fails the overlap test of line 341: the request's end is set and not
    after the record's start, or the record has a non-zero time range
    that ends before the request's start.  The loop over the vectors
    never skips the record. *)
Theorem read_frdata_skip_iff
    (series_append : Series -> option Series -> error + Series)
    (epoch start end_ : Q) (name_ : option string) (frdata : FrData) :
  let datastart := (epoch + frdata_timeOffset frdata)%Q in
  let trange := match frdata_tRange frdata with
                | Some r => r
                | None => 0%Q
                end in
  read_frdata series_append epoch start end_ name_ frdata = Skip <->
  (truthyQ end_ = true /\ (end_ <= datastart)%Q) \/
  (truthyQ trange = true /\ (datastart + trange < start)%Q).
Proof.
  intros datastart trange. unfold read_frdata. fold datastart trange.
  assert (Htest :
    (truthyQ end_ && Qle_bool end_ datastart)
    || (truthyQ trange && negb (Qle_bool start (datastart + trange)%Q))
    = true <->
    (truthyQ end_ = true /\ (end_ <= datastart)%Q) \/
    (truthyQ trange = true /\ (datastart + trange < start)%Q)).
  { rewrite orb_true_iff, !andb_true_iff, negb_true_iff.
    rewrite Qle_bool_iff.
    assert (Hlt : Qle_bool start (datastart + trange)%Q = false
                  <-> (datastart + trange < start)%Q).
    { split.
      - intros Hf. apply Qnot_le_lt. intros Hle.
        apply Qle_bool_iff in Hle. congruence.
      - intros Hlt. destruct (Qle_bool start (datastart + trange)%Q) eqn:E;
          [|reflexivity].
        apply Qle_bool_iff in E. exfalso. exact (Qlt_not_le _ _ Hlt E). }
    rewrite Hlt. reflexivity. }
  destruct ((truthyQ end_ && Qle_bool end_ datastart)
            || (truthyQ trange
                && negb (Qle_bool start (datastart + trange)%Q))) eqn:E.
  - split; [intros _; apply Htest; reflexivity | reflexivity].
  - split.
    + intros H. exfalso.
      exact (read_frdata_vectors_not_skip _ _ _ _ _ _ _ H).
    + intros H. apply Htest in H. discriminate.
Qed.

(** X7.  [read_frdata] returns [None] exactly when the record passes the
    overlap test and every one of its vectors skips; a record without
    vectors is one such. *)
Theorem read_frdata_none_iff
    (series_append : Series -> option Series -> error + Series)
    (epoch start end_ : Q) (name_ : option string) (frdata : FrData) :
  read_frdata series_append epoch start end_ name_ frdata = Ok None <->
  read_frdata series_append epoch start end_ name_ frdata <> Skip /\
  Forall (fun v => read_frvect v (epoch + frdata_timeOffset frdata)%Q
                               start end_ name_ = Skip)
         (frdata_data frdata).
Proof.
  split.
  - intros H. split; [congruence|].
    unfold read_frdata in H. destruct (_ || _); [discriminate|].
    eapply read_frdata_vectors_none. exact H.
  - intros [Hns Hall]. apply read_frdata_all_skip; assumption.
Qed.

Lemma read_frdata_none_iff_witness :
  read_frdata series_append_spec 100 105 120 (Some "X1:TEST") frdata_half
  = Ok None.
Proof.
  apply (proj2 (read_frdata_none_iff series_append_spec 100 105 120
                  (Some "X1:TEST") frdata_half)).
  split.
  - vm_compute. discriminate.
  - repeat constructor.
Defined.

(** ** Frames *)

(** X8.  A frame that holds a requested time is never passed over: if
    some time of the frame's span is at or after the request's start,
    when that is set, and before the request's end, when that is set,
    [_need_frame] is true. *)
Theorem need_frame_when_overlapping
    (frame : FrameH) (start end_ t : Q)
    (Hin : (frame_GTime frame <= t)%Q /\
           (t < frame_GTime frame + frame_Dt frame)%Q)
    (Hstart : truthyQ start = true -> (start <= t)%Q)
    (Hend : truthyQ end_ = true -> (t < end_)%Q) :
  _need_frame frame start end_ = true.
Proof.
  destruct Hin as [Hlo Hhi]. unfold _need_frame.
  destruct (truthyQ end_ && Qle_bool end_ (frame_GTime frame)) eqn:E1.
  - apply andb_true_iff in E1 as [Ht Hle].
    apply Qle_bool_iff in Hle. specialize (Hend Ht). lra.
  - destruct (truthyQ start
              && Qle_bool (frame_GTime frame + frame_Dt frame)%Q start)
      eqn:E2; [|reflexivity].
    apply andb_true_iff in E2 as [Ht Hle].
    apply Qle_bool_iff in Hle. specialize (Hstart Ht). lra.
Qed.

Lemma need_frame_when_overlapping_witness :
  _need_frame frame_full 105 120 = true.
Proof.
  apply (need_frame_when_overlapping frame_full 105 120 107).
  - split; vm_compute; [discriminate | reflexivity].
  - intros _. vm_compute. discriminate.
  - intros _. vm_compute. reflexivity.
Defined.

(** ** The channel-type resolver, continued *)

Lemma get_channel_types_loop_declared (stream : IFrameFStream)
    (channels : list string) (d : gmap string string) :
  (forall c, c ∈ channels -> ctype_declared d c = true) ->
  get_channel_types_loop stream channels d = (d, Ok tt).
Proof.
  induction channels as [|c rest IH]; intros Hall; [reflexivity|].
  cbn [get_channel_types_loop].
  rewrite (Hall c) by left. cbn [negb]. rewrite (Hall c) by left.
  cbn [negb]. apply IH. intros x Hx. apply Hall. right. exact Hx.
Qed.

Lemma resolved_types_declared (stream : IFrameFStream)
    (d d' : gmap string string) (channels : list string) :
  find (unresolvable stream d) channels = None ->
  (forall c, d' !! c = resolved_types stream d channels c) ->
  forall c, c ∈ channels -> ctype_declared d' c = true.
Proof.
  intros Hfind Hr c Hc. unfold ctype_declared. rewrite Hr.
  destruct (ctype_declared d c) eqn:Hd.
  - unfold resolved_types. rewrite Hd. exact Hd.
  - destruct (resolved_types_requested stream d channels c Hfind Hc Hd)
      as (t & Ht & ->).
    cbn. apply (resolve_by_priority_lowercase stream c t Ht).
Qed.

Lemma declared_nonempty (d : gmap string string) (c : string) :
  ctype_declared d c = true -> d <> ∅.
Proof.
  intros Hd ->. unfold ctype_declared in Hd.
  rewrite lookup_empty in Hd. discriminate.
Qed.

(** What a call that returns leaves behind: the dict at the returned
    location has a type for every requested channel. *)
Lemma get_channel_types_ok (h : heap) (stream : IFrameFStream)
    (channels : list string) (ctype : option loc) (h' : heap) (l' : loc) :
  get_channel_types h stream channels ctype = (h', Ok l') ->
  exists d' : gmap string string,
    h' !! l' = Some d' /\
    h' = <[l' := d']> h' /\
    forall c, c ∈ channels -> ctype_declared d' c = true.
Proof.
  unfold get_channel_types.
  destruct (ctype_or_new h ctype) as [h0 l].
  pose proof (get_channel_types_loop_spec stream channels (h0 !!! l))
    as Hloop.
  destruct (find (unresolvable stream (h0 !!! l)) channels) eqn:Hfind.
  - destruct Hloop as (d' & -> & _). discriminate.
  - destruct Hloop as (d' & -> & Hr). intros [= <- <-].
    exists d'. split; [apply lookup_insert_eq|].
    split; [symmetry; apply insert_insert_eq|].
    exact (resolved_types_declared stream _ d' channels Hfind Hr).
Qed.

(** X9.  When no dict is passed, or the dict passed is empty, the types
    go to a new dict at a location the heap did not use: the heap the
    caller knew is unchanged, and an empty dict the caller passed stays
    empty. *)
Theorem get_channel_types_new_dict
    (h : heap) (stream : IFrameFStream) (channels : list string)
    (ctype : option loc)
    (Hempty : ctype = None \/
              exists l : loc, ctype = Some l /\
                              h !!! l = (∅ : gmap string string)) :
  exists (d' : gmap string string) (r : outcome loc),
    get_channel_types h stream channels ctype
    = (<[fresh (dom h) := d']> h, r) /\
    (r = Ok (fresh (dom h)) \/
     exists c0 : string, r = Raise (ValueError (ChannelNotInTOC c0))) /\
    (fresh (dom h) ∉ dom h) /\
    (forall l : loc,
       l ∈ dom h -> (<[fresh (dom h) := d']> h) !! l = h !! l).
Proof.
  assert (Hnew : ctype_or_new h ctype
                 = (<[fresh (dom h) := ∅]> h, fresh (dom h))).
  { destruct Hempty as [->|(l & -> & Hl)]; [reflexivity|].
    unfold ctype_or_new. rewrite bool_decide_true by exact Hl.
    reflexivity. }
  unfold get_channel_types. rewrite Hnew.
  rewrite lookup_total_insert_eq.
  pose proof (get_channel_types_loop_spec stream channels ∅) as Hloop.
  pose proof (is_fresh (dom h)) as Hfresh.
  assert (Hother : forall (d' : gmap string string) (l : loc),
            l ∈ dom h -> (<[fresh (dom h) := d']> h) !! l = h !! l).
  { intros d' l Hl. apply lookup_insert_ne. intros E. subst l.
    exact (Hfresh Hl). }
  destruct (find (unresolvable stream ∅) channels) as [c0|].
  - destruct Hloop as (d' & -> & _).
    exists d', (Raise (ValueError (ChannelNotInTOC c0))).
    rewrite insert_insert_eq. repeat split; eauto.
  - destruct Hloop as (d' & -> & _).
    exists d', (Ok (fresh (dom h))).
    rewrite insert_insert_eq. repeat split; eauto.
Qed.

Lemma get_channel_types_new_dict_witness :
  exists (d' : gmap string string) (r : outcome loc),
    get_channel_types {[ 1%positive := ∅ ]} stream_two ["X1:TEST"]
                      (Some 1%positive)
    = (<[fresh (dom ({[ 1%positive := ∅ ]} : heap)) := d']>
         {[ 1%positive := ∅ ]}, r) /\
    (<[fresh (dom ({[ 1%positive := ∅ ]} : heap)) := d']>
       ({[ 1%positive := ∅ ]} : heap)) !! 1%positive = Some ∅.
Proof.
  destruct (get_channel_types_new_dict
              {[ 1%positive := ∅ ]} stream_two ["X1:TEST"]
              (Some 1%positive))
    as (d' & r & H1 & _ & _ & H2).
  - right. exists 1%positive. split; reflexivity.
  - exists d', r. split; [exact H1|].
    rewrite H2; [reflexivity|].
    rewrite dom_singleton_L. apply elem_of_singleton. reflexivity.
Defined.

(** A dict that has a type for every requested channel is returned as
    it is. *)
Lemma get_channel_types_declared
    (h : heap) (stream : IFrameFStream) (channels : list string)
    (l : loc) (d : gmap string string)
    (Hl : h !! l = Some d)
    (Hne : d <> ∅)
    (Hall : forall c : string, c ∈ channels -> ctype_declared d c = true) :
  get_channel_types h stream channels (Some l) = (h, Ok l).
Proof.
  assert (Hd : h !!! l = d) by (apply lookup_total_correct; exact Hl).
  unfold get_channel_types, ctype_or_new.
  rewrite Hd, bool_decide_false by exact Hne. rewrite Hd.
  rewrite (get_channel_types_loop_declared stream channels d Hall).
  rewrite insert_id by exact Hl. reflexivity.
Qed.

(** X10.  Declared types are taken on trust: when the dict passed in has
    a type for every requested channel, the call returns that dict
    unchanged whatever the stream's table of contents holds. *)
Theorem get_channel_types_declared_not_checked
    (h : heap) (stream : IFrameFStream) (channels : list string)
    (l : loc) (d : gmap string string)
    (Hl : h !! l = Some d)
    (Hne : d <> ∅)
    (Hall : forall c : string, c ∈ channels -> ctype_declared d c = true) :
  get_channel_types h stream channels (Some l) = (h, Ok l).
Proof.
  exact (get_channel_types_declared h stream channels l d Hl Hne Hall).
Qed.

Lemma get_channel_types_declared_not_checked_witness :
  get_channel_types {[ 1%positive := {[ "X1:GONE" := "adc" ]} ]}
                    stream_two ["X1:GONE"] (Some 1%positive)
  = ({[ 1%positive := {[ "X1:GONE" := "adc" ]} ]}, Ok 1%positive).
Proof.
  apply (get_channel_types_declared_not_checked
           {[ 1%positive := {[ "X1:GONE" := "adc" ]} ]} stream_two
           ["X1:GONE"] 1%positive {[ "X1:GONE" := "adc" ]}).
  - reflexivity.
  - intros E.
    apply (f_equal (fun m : gmap string string => m !! "X1:GONE")) in E.
    vm_compute in E. discriminate.
  - intros c Hc. apply list_elem_of_singleton in Hc as ->. reflexivity.
Defined.

(** X11.  A call that returns leaves a type for every requested channel
    in the dict it returns, so the subscript [ctype[channel]] of line 207
    finds one; and a second call with the returned dict and the same
    request changes nothing. *)
Theorem get_channel_types_idempotent
    (h : heap) (stream : IFrameFStream) (channels : list string)
    (ctype : option loc) (h' : heap) (l' : loc)
    (Hne : channels <> [])
    (Hok : get_channel_types h stream channels ctype = (h', Ok l')) :
  (forall c : string,
     c ∈ channels ->
     exists t : string,
       (h' !!! l' : gmap string string) !! c = Some t /\
       truthy_str t = true)
  /\ get_channel_types h' stream channels (Some l') = (h', Ok l').
Proof.
  destruct (get_channel_types_ok h stream channels ctype h' l' Hok)
    as (d' & Hl & _ & Hall).
  assert (Hd : h' !!! l' = d') by (apply lookup_total_correct; exact Hl).
  split.
  - intros c Hc. specialize (Hall c Hc). rewrite Hd.
    unfold ctype_declared in Hall.
    destruct (d' !! c) as [t|]; [|discriminate]. exists t. auto.
  - apply (get_channel_types_declared h' stream channels l' d');
      [exact Hl | | exact Hall].
    destruct channels as [|c rest]; [congruence|].
    apply (declared_nonempty d' c), Hall. left.
Qed.

Lemma get_channel_types_idempotent_witness :
  get_channel_types
    (fst (get_channel_types ∅ stream_two ["X1:TEST"; "X1:AUX"] None))
    stream_two ["X1:TEST"; "X1:AUX"] (Some (fresh (dom (∅ : heap))))
  = (fst (get_channel_types ∅ stream_two ["X1:TEST"; "X1:AUX"] None),
     Ok (fresh (dom (∅ : heap)))).
Proof.
  refine (proj2 (get_channel_types_idempotent
                   ∅ stream_two ["X1:TEST"; "X1:AUX"] None _ _ _ _)).
  - discriminate.
  - vm_compute. reflexivity.
Defined.

(** ** Type strings and readers *)

Lemma ascii_lower_letter (c : ascii) :
  is_lower (ascii_lower c) = true ->
  is_upper c || is_lower c = true /\
  ascii_upper c = ascii_upper (ascii_lower c).
Proof.
  destruct c as [[] [] [] [] [] [] [] []]; vm_compute; intros H;
    first [discriminate H | split; reflexivity].
Qed.

(** The title-cased form of a word of letters: its lower-cased form with
    the first letter raised. *)
Lemma title_from_letters (s : string) :
  forall after : bool,
    (forall c, In c (list_ascii_of_string (lower s)) -> is_lower c = true) ->
    title_from after s
    = match lower s with
      | EmptyString => EmptyString
      | String c r => String (if after then c else ascii_upper c) r
      end.
Proof.
  induction s as [|a s IH]; intros after Hall; [reflexivity|].
  cbn [lower title_from].
  assert (Ha : is_lower (ascii_lower a) = true) by (apply Hall; left; reflexivity).
  destruct (ascii_lower_letter a Ha) as [Hl Hu].
  rewrite Hl, IH by (intros c Hc; apply Hall; right; exact Hc).
  destruct after.
  - f_equal. destruct (lower s); reflexivity.
  - rewrite Hu. f_equal. destruct (lower s); reflexivity.
Qed.

Lemma title_of_type (t : string) :
  (lower t = "adc" -> title t = "Adc") /\
  (lower t = "proc" -> title t = "Proc") /\
  (lower t = "sim" -> title t = "Sim").
Proof.
  unfold title.
  repeat split; intros H; rewrite title_from_letters; rewrite H;
    try reflexivity;
    cbn; intros c Hc; repeat (destruct Hc as [<-|Hc]; [reflexivity|]);
    destruct Hc.
Qed.

(** X12.  The type string of a channel is read without regard to case:
    any spelling of [adc], [proc] or [sim] makes [_read_channel] use the
    reader of that record type, hand it the channel name, and decode the
    record it returns with that name as the filter; an error of the
    reader is passed on. *)
Theorem read_channel_type_case_insensitive
    (series_append : Series -> option Series -> error + Series)
    (frame : FrameH) (name_ ctype : string) (epoch start end_ : Q)
    (r : reader)
    (Htype : lower ctype = match r with
                           | ReadFrAdcData => "adc"
                           | ReadFrProcData => "proc"
                           | ReadFrSimData => "sim"
                           end) :
  _read_channel series_append frame name_ ctype epoch start end_
  = match frame_read frame r name_ with
    | inl e => Raise e
    | inr data =>
        read_frdata series_append epoch start end_ (Some name_) data
    end.
Proof.
  unfold _read_channel.
  destruct (title_of_type ctype) as (Ha & Hp & Hs).
  destruct r; [rewrite (Ha Htype) | rewrite (Hp Htype) | rewrite (Hs Htype)];
    reflexivity.
Qed.

Lemma read_channel_type_case_insensitive_witness :
  _read_channel series_append_spec frame_full "X1:TEST" "aDC" 100 100 110
  = read_frdata series_append_spec 100 100 110 (Some "X1:TEST") frdata_full.
Proof.
  apply (read_channel_type_case_insensitive
           series_append_spec frame_full "X1:TEST" "aDC" 100 100 110
           ReadFrAdcData).
  reflexivity.
Defined.

(** X13.  The type that [get_channel_types] writes for a requested
    channel that had none makes [_read_channel] use the reader of the
    list the channel was found in: the Sim reader if the Sim list holds
    it, else the Proc reader if the Proc list does, else the ADC
    reader. *)
Theorem resolved_type_selects_reader
    (series_append : Series -> option Series -> error + Series)
    (h : heap) (stream : IFrameFStream) (channels : list string)
    (ctype : option loc) (h' : heap) (l' : loc) (c : string)
    (frame : FrameH) (epoch start end_ : Q)
    (Hok : get_channel_types h stream channels ctype = (h', Ok l'))
    (Hc : c ∈ channels)
    (Hnone : ctype_declared
               (fst (ctype_or_new h ctype) !!! snd (ctype_or_new h ctype))
               c = false) :
  exists t : string,
    (h' !!! l' : gmap string string) !! c = Some t /\
    _read_channel series_append frame c t epoch start end_
    = match frame_read frame
              (if bool_decide (c ∈ toc_Sim stream) then ReadFrSimData
               else if bool_decide (c ∈ toc_Proc stream) then ReadFrProcData
               else ReadFrAdcData) c with
      | inl e => Raise e
      | inr data =>
          read_frdata series_append epoch start end_ (Some c) data
      end.
Proof.
  unfold get_channel_types in Hok.
  destruct (ctype_or_new h ctype) as [h0 l]. cbn [fst snd] in Hnone.
  pose proof (get_channel_types_loop_spec stream channels (h0 !!! l))
    as Hloop.
  destruct (find (unresolvable stream (h0 !!! l)) channels) eqn:Hfind.
  { destruct Hloop as (d' & Hl & _). rewrite Hl in Hok. discriminate. }
  destruct Hloop as (d' & Hl & Hr). rewrite Hl in Hok.
  injection Hok as <- <-.
  destruct (resolved_types_requested stream _ channels c Hfind Hc Hnone)
    as (t & Ht & Hrt).
  exists t. rewrite lookup_total_insert_eq, Hr. split; [exact Hrt|].
  unfold _read_channel. unfold resolve_by_priority in Ht.
  repeat case_bool_decide; inversion Ht; subst; reflexivity.
Qed.

Lemma resolved_type_selects_reader_witness :
  exists t : string,
    (fst (get_channel_types ∅ stream_two ["X1:TEST"; "X1:AUX"] None)
     !!! fresh (dom (∅ : heap)) : gmap string string) !! "X1:AUX" = Some t /\
    _read_channel series_append_spec frame_two "X1:AUX" t 100 100 110
    = match frame_read frame_two
              (if bool_decide ("X1:AUX" ∈ toc_Sim stream_two)
               then ReadFrSimData
               else if bool_decide ("X1:AUX" ∈ toc_Proc stream_two)
                    then ReadFrProcData
                    else ReadFrAdcData) "X1:AUX" with
      | inl e => Raise e
      | inr data =>
          read_frdata series_append_spec 100 100 110 (Some "X1:AUX") data
      end.
Proof.
  apply (resolved_type_selects_reader series_append_spec
           ∅ stream_two ["X1:TEST"; "X1:AUX"] None).
  - vm_compute. reflexivity.
  - right. left.
  - vm_compute. reflexivity.
Defined.

(** ** The frame reader, continued *)

Section DictFacts.
Context {K V : Type} `{EqDecision K}.

Lemma dict_get_set_eq (k : K) (v : V) (d : list (K * V)) :
  Dict.get k (Dict.set k v d) = Some v.
Proof.
  induction d as [|[k' v'] r IH]; cbn.
  - rewrite decide_True by reflexivity. reflexivity.
  - destruct (decide (k = k')) as [E|E]; cbn.
    + rewrite decide_True by reflexivity. reflexivity.
    + rewrite decide_False by exact E. exact IH.
Qed.

Lemma dict_get_set_ne (k x : K) (v : V) (d : list (K * V)) :
  k <> x -> Dict.get x (Dict.set k v d) = Dict.get x d.
Proof.
  intros Hne. induction d as [|[k' v'] r IH]; cbn.
  - rewrite decide_False by congruence. reflexivity.
  - destruct (decide (k = k')) as [E|E]; cbn.
    + subst k'. rewrite !decide_False by congruence. reflexivity.
    + destruct (decide (x = k')); [reflexivity | exact IH].
Qed.

Lemma dict_get_none_keys (k : K) (d : list (K * V)) :
  Dict.get k d = None <-> ~ In k (map fst d).
Proof.
  induction d as [|[k' v'] r IH]; cbn; [tauto|].
  destruct (decide (k = k')) as [E|E].
  - split; [discriminate|]. intros Hn. exfalso. apply Hn. left. congruence.
  - rewrite IH. split; [|tauto]. intros Hn [Hk|Hk]; [congruence | tauto].
Qed.

Lemma dict_set_keys_nodup (k : K) (v : V) (d : list (K * V)) :
  List.NoDup (map fst d) -> List.NoDup (map fst (Dict.set k v d)).
Proof.
  induction d as [|[k' v'] r IH]; cbn; intros Hnd.
  - constructor; [intros [] | constructor].
  - inversion Hnd as [|? ? Hnotin Hnd']; subst.
    destruct (decide (k = k')) as [E|E]; cbn.
    + subst k'. constructor; assumption.
    + constructor; [|exact (IH Hnd')].
      intros Hin. apply Hnotin.
      apply dict_get_none_keys in Hnotin.
      destruct (Dict.get k' (Dict.set k v r)) eqn:Hg.
      * rewrite dict_get_set_ne in Hg by exact E. congruence.
      * apply dict_get_none_keys in Hg. tauto.
Qed.
End DictFacts.

Section FrameReader2.
Variable series_append : Series -> option Series -> error + Series.
Variable span_contains : Q -> Q -> Series -> bool.
Variable open_gwf : string -> error + IFrameFStream.

Lemma append_or_set_invariant (channels : list string)
    (out out' : list (string * pyobj)) (c : string) (new : option Series) :
  c ∈ channels ->
  out_invariant channels out ->
  append_or_set series_append out c new = inr out' ->
  out_invariant channels out'.
Proof.
  intros Hc [Hnd Hkeys] Happ.
  assert (Hset : exists obj, out' = Dict.set c obj out).
  { unfold append_or_set in Happ.
    destruct (Dict.get c out) as [[s|]|].
    - destruct (series_append s new) as [e|s'].
      + destruct e; try discriminate. injection Happ as <-. eauto.
      + injection Happ as <-. eauto.
    - discriminate.
    - injection Happ as <-. eauto. }
  destruct Hset as [obj ->]. split.
  - apply dict_set_keys_nodup, Hnd.
  - intros x Hx. destruct (decide (c = x)) as [<-|Hne]; [exact Hc|].
    rewrite dict_get_set_ne in Hx by exact Hne. exact (Hkeys x Hx).
Qed.

Lemma read_channels_invariant (all : list string) (frame : FrameH)
    (ctype : gmap string string) (epoch start end_ : Q)
    (channels : list string) :
  (forall c, c ∈ channels -> c ∈ all) ->
  forall out out',
    out_invariant all out ->
    read_channels series_append frame ctype epoch start end_ channels out
    = Ok out' ->
    out_invariant all out'.
Proof.
  induction channels as [|c rest IH]; intros Hsub out out' Hinv; cbn.
  - intros [= <-]. exact Hinv.
  - destruct (ctype !! c); [|discriminate].
    assert (Hrest : forall x, x ∈ rest -> x ∈ all)
      by (intros x Hx; apply Hsub; right; exact Hx).
    destruct (_read_channel _ _ _ _ _ _ _) as [new| |e];
      [|apply IH; assumption|discriminate].
    destruct (append_or_set _ _ _ _) as [e|out1] eqn:Happ; [discriminate|].
    apply IH; [exact Hrest|].
    eapply append_or_set_invariant; [apply Hsub; left | exact Hinv | exact Happ].
Qed.

Lemma read_frames_invariant (nframes : nat) (ctype : gmap string string)
    (channels : list string) (start end_ : Q) (frames : list FrameH) :
  forall this out out' how,
    out_invariant channels out ->
    read_frames series_append span_contains nframes ctype channels
                start end_ this frames out = Ok (out', how) ->
    out_invariant channels out'.
Proof.
  induction frames as [|f rest IH]; intros this out out' how Hinv; cbn.
  - destruct (_ <=? _)%nat; [|discriminate]. intros [= <- _]. exact Hinv.
  - destruct (negb _); [apply IH; exact Hinv|].
    destruct (read_channels _ _ _ _ _ _ _ _) as [o| |e] eqn:Hrc;
      try discriminate.
    assert (Ho : out_invariant channels o).
    { eapply read_channels_invariant; [|exact Hinv|exact Hrc]. auto. }
    destruct (all_span_covered _ _ _ o) as [e|[|]]; [discriminate| |].
    + intros [= <- _]. exact Ho.
    + apply IH. exact Ho.
Qed.


Lemma read_frames_early_exit_stable (nframes : nat)
    (ctype : gmap string string) (channels : list string) (start end_ : Q)
    (frames more : list FrameH) :
  forall this out out',
    read_frames series_append span_contains nframes ctype channels
                start end_ this frames out = Ok (out', EarlyExit) ->
    read_frames series_append span_contains nframes ctype channels
                start end_ this (frames ++ more) out = Ok (out', EarlyExit).
Proof.
  induction frames as [|f rest IH]; intros this out out'; cbn.
  - destruct (_ <=? _)%nat; discriminate.
  - destruct (negb _); [apply IH|].
    destruct (read_channels _ _ _ _ _ _ _ _) as [o| |e]; try discriminate.
    destruct (all_span_covered _ _ _ o) as [e|[|]]; try discriminate.
    + auto.
    + apply IH.
Qed.

Lemma read_frames_none_needed (nframes : nat) (ctype : gmap string string)
    (channels : list string) (start end_ : Q) (frames : list FrameH) :
  Forall (fun f => _need_frame f start end_ = false) frames ->
  forall this out,
    (nframes <= this + length frames)%nat ->
    read_frames series_append span_contains nframes ctype channels
                start end_ this frames out = Ok (out, Exhausted).
Proof.
  induction 1 as [|f rest Hf _ IH]; intros this out Hn; cbn.
  - cbn in Hn. rewrite (proj2 (Nat.leb_le _ _)) by lia. reflexivity.
  - rewrite Hf. cbn [negb]. apply IH. cbn in Hn. lia.
Qed.
End FrameReader2.

Lemma dict_get_of_in {K V} `{EqDecision K} (k : K) (v : V)
    (d : list (K * V)) :
  List.NoDup (map fst d) -> In (k, v) d -> Dict.get k d = Some v.
Proof.
  induction d as [|[k' v'] r IH]; intros Hnd Hin; [destruct Hin|].
  cbn in Hnd. inversion Hnd as [|? ? Hnotin Hnd']; subst.
  cbn. destruct Hin as [Heq|Hin].
  - injection Heq as -> ->. rewrite decide_True by reflexivity. reflexivity.
  - destruct (decide (k = k')) as [->|Hne]; [|exact (IH Hnd' Hin)].
    exfalso. apply Hnotin.
    exact (in_map fst _ _ Hin).
Qed.

(** After a frame that leaves every requested channel with a series that
    covers the span, the loop is left. *)
Lemma read_frames_exits_when_all_covered
    (series_append : Series -> option Series -> error + Series)
    (span_contains : Q -> Q -> Series -> bool)
    (nframes : nat) (ctype : gmap string string) (channels : list string)
    (start end_ : Q) (this : nat) (frame : FrameH) (rest : list FrameH)
    (out out' : list (string * pyobj)) :
  out_invariant channels out ->
  _need_frame frame start end_ = true ->
  read_channels series_append frame ctype (frame_GTime frame) start end_
                channels out = Ok out' ->
  (forall c, c ∈ channels ->
     exists s, Dict.get c out' = Some (SeriesObj s) /\
               span_contains start end_ s = true) ->
  read_frames series_append span_contains nframes ctype channels
              start end_ this (frame :: rest) out
  = Ok (out', EarlyExit).
Proof.
  intros Hinv Hneed Hrc Hcov.
  assert (Hinv' : out_invariant channels out').
  { eapply read_channels_invariant; [|exact Hinv|exact Hrc]. auto. }
  destruct Hinv' as [Hnd Hkeys].
  assert (Hall : all_span_covered span_contains start end_ out'
                 = inr true).
  { apply all_span_covered_true, Forall_forall.
    intros [k obj] Hin. apply list_elem_of_In in Hin.
    pose proof (dict_get_of_in k obj out' Hnd Hin) as Hg.
    destruct (Hcov k) as (s & Hs & Hc).
    { apply Hkeys. rewrite Hg. eauto. }
    exists s. cbn [snd]. split; [congruence | exact Hc]. }
  cbn [read_frames]. rewrite Hneed. cbn [negb]. rewrite Hrc, Hall.
  reflexivity.
Qed.

(** The file [full.gwf] holds [X1:TEST] over [100, 110) only; asked for
    [100, 120), [read_gwf] reaches the end of the frames and returns the
    ten samples it found, which do not cover the request. *)
Lemma read_gwf_partial_coverage_counterexample :
  ~ coverage_or_failure series_append_spec span_contains_spec open_example
      ∅ "full.gwf" ["X1:TEST"] (Some 100%Q) (Some 120%Q) None.
Proof.
  intros H.
  assert (E : snd (read_gwf series_append_spec span_contains_spec
                     open_example ∅ "full.gwf" ["X1:TEST"]
                     (Some 100%Q) (Some 120%Q) None)
              = Ok [("X1:TEST",
                     SeriesObj {| value := [0; 1; 2; 3; 4; 5; 6; 7; 8; 9];
                                  t0 := 100; dt := 1; name := "X1:TEST";
                                  channel := "X1:TEST";
                                  unit := Some "m" |})])
    by (vm_compute; reflexivity).
  destruct (H _ E "X1:TEST") as (s & Hg & Hc); [left|].
  vm_compute in Hg. injection Hg as <-.
  vm_compute in Hc. discriminate.
Qed.

(** In [two.gwf], asked for [100, 110), the test of line 218 holds after
    the first frame although [X1:AUX] has not been read. *)
Lemma read_frames_early_exit_without_a_channel :
  ~ early_exit_only_on_full_coverage
      series_append_spec span_contains_spec stream_two
      (<["X1:TEST" := "adc"]> (<["X1:AUX" := "proc"]> ∅))
      ["X1:TEST"; "X1:AUX"] 100 110.
Proof.
  intros H.
  assert (E : read_frames series_append_spec span_contains_spec
                (stream_nframes stream_two)
                (<["X1:TEST" := "adc"]> (<["X1:AUX" := "proc"]> ∅))
                ["X1:TEST"; "X1:AUX"] 100 110 0
                (stream_frames stream_two) []
              = Ok ([("X1:TEST",
                      SeriesObj {| value := [0; 1; 2; 3; 4; 5; 6; 7; 8; 9];
                                   t0 := 100; dt := 1; name := "X1:TEST";
                                   channel := "X1:TEST";
                                   unit := Some "m" |})], EarlyExit))
    by (vm_compute; reflexivity).
  destruct (H _ E "X1:AUX") as (s & Hg & _); [right; left|].
  vm_compute in Hg. discriminate.
Qed.

(** C1 (amended).  A call of [read_gwf] either fails with an error other
    than the private skip signal, or returns a dict with an entry for
    every requested channel.  The frame loop is left early after a frame
    that leaves every requested channel with a series that covers the
    requested span, and it is not left early while a series it has
    accumulated does not cover the span; so a dict returned after the
    early exit holds, for every requested channel, a series that covers
    the span.  A dict returned after the frames ran out is checked for
    the presence of every requested channel only, not for coverage. *)
Theorem read_gwf_presence_or_failure
    (series_append : Series -> option Series -> error + Series)
    (span_contains : Q -> Q -> Series -> bool)
    (open_gwf : string -> error + IFrameFStream)
    (h : heap) (filename : string) (channels : list string)
    (start end_ : option Q) (ctype : option loc) :
  snd (read_gwf series_append span_contains open_gwf
                h filename channels start end_ ctype) <> Skip
  /\ (forall out : list (string * pyobj),
        snd (read_gwf series_append span_contains open_gwf
                      h filename channels start end_ ctype) = Ok out ->
        forall c : string, c ∈ channels -> is_Some (Dict.get c out))
  /\ (forall out : list (string * pyobj),
        snd (read_gwf_traced series_append span_contains open_gwf
                             h filename channels start end_ ctype)
        = Ok (out, EarlyExit) ->
        snd (read_gwf series_append span_contains open_gwf
                      h filename channels start end_ ctype) = Ok out /\
        forall c : string, c ∈ channels ->
          exists s : Series,
            Dict.get c out = Some (SeriesObj s) /\
            span_contains (or_zero start) (or_zero end_) s = true)
  /\ (forall (nframes : nat) (types : gmap string string)
             (st en : Q) (this : nat) (frames : list FrameH)
             (out0 out : list (string * pyobj)),
        read_frames series_append span_contains nframes types channels
                    st en this frames out0 = Ok (out, EarlyExit) ->
        Forall (fun kv => exists s : Series,
                            snd kv = SeriesObj s /\
                            span_contains st en s = true) out)
  /\ (forall (nframes : nat) (types : gmap string string)
             (st en : Q) (this : nat) (frame : FrameH)
             (rest : list FrameH) (out0 out : list (string * pyobj)),
        out_invariant channels out0 ->
        _need_frame frame st en = true ->
        read_channels series_append frame types (frame_GTime frame)
                      st en channels out0 = Ok out ->
        (forall c : string, c ∈ channels ->
           exists s : Series,
             Dict.get c out = Some (SeriesObj s) /\
             span_contains st en s = true) ->
        read_frames series_append span_contains nframes types channels
                    st en this (frame :: rest) out0
        = Ok (out, EarlyExit)).
Proof.
  split; [apply read_gwf_not_skip|]. split; [|split; [|split]].
  - intros out Hout c Hc.
    unfold read_gwf in Hout.
    pose proof (read_gwf_traced_ok series_append span_contains open_gwf
                  h filename channels start end_ ctype) as Hok.
    destruct (read_gwf_traced _ _ _ _ _ _ _ _ _) as [h' [[o hw]| |e]];
      cbn [snd] in *; try discriminate.
    injection Hout as <-.
    destruct (Hok o hw eq_refl) as [Hall _]. exact (Hall c Hc).
  - intros out Htr.
    destruct (read_gwf_traced_ok series_append span_contains open_gwf
                h filename channels start end_ ctype out EarlyExit Htr)
      as [Hall Hcov].
    split.
    + unfold read_gwf.
      destruct (read_gwf_traced _ _ _ _ _ _ _ _ _) as [h' r].
      cbn [snd] in Htr. rewrite Htr. reflexivity.
    + intros c Hc.
      destruct (Hall c Hc) as [obj Hobj].
      specialize (Hcov eq_refl).
      apply all_span_covered_true in Hcov.
      rewrite Forall_forall in Hcov.
      destruct (Hcov (c, obj)) as (s & Hs & Hcs).
      { apply list_elem_of_In, dict_get_some_in, Hobj. }
      cbn in Hs. subst obj. exists s. split; assumption.
  - intros nframes types st en this frames out0 out Hrf.
    apply all_span_covered_true.
    eapply read_frames_early_exit. exact Hrf.
  - intros nframes types st en this frame rest out0 out Hinv Hneed Hrc Hcov.
    eapply read_frames_exits_when_all_covered; eassumption.
Qed.

Lemma read_gwf_presence_or_failure_witness :
  exists s : Series,
    Dict.get "X1:TEST"
      [("X1:TEST",
        SeriesObj {| value := [0; 1; 2; 3; 4; 5; 6; 7; 8; 9];
                     t0 := 100; dt := 1; name := "X1:TEST";
                     channel := "X1:TEST"; unit := Some "m" |})]
    = Some (SeriesObj s) /\
    span_contains_spec 100 110 s = true.
Proof.
  destruct (read_gwf_presence_or_failure
              series_append_spec span_contains_spec open_example
              ∅ "full.gwf" ["X1:TEST"] (Some 100%Q) (Some 110%Q) None)
    as (_ & _ & H & _).
  destruct (H [("X1:TEST",
                SeriesObj {| value := [0; 1; 2; 3; 4; 5; 6; 7; 8; 9];
                             t0 := 100; dt := 1; name := "X1:TEST";
                             channel := "X1:TEST"; unit := Some "m" |})])
    as [_ Hc].
  - vm_compute. reflexivity.
  - apply (Hc "X1:TEST"). left.
Defined.

(** X14.  The dict [read_gwf] returns has exactly the requested channels
    as its keys, each once. *)
Theorem read_gwf_keys_are_requested
    (series_append : Series -> option Series -> error + Series)
    (span_contains : Q -> Q -> Series -> bool)
    (open_gwf : string -> error + IFrameFStream)
    (h : heap) (filename : string) (channels : list string)
    (start end_ : option Q) (ctype : option loc)
    (out : list (string * pyobj))
    (Hout : snd (read_gwf series_append span_contains open_gwf
                          h filename channels start end_ ctype) = Ok out) :
  List.NoDup (map fst out) /\
  forall c : string, is_Some (Dict.get c out) <-> c ∈ channels.
Proof.
  unfold read_gwf, read_gwf_traced in Hout.
  destruct (open_gwf filename) as [e|stream]; [discriminate|].
  destruct (get_channel_types h stream channels ctype) as [h' [l| |e]];
    [|discriminate..].
  cbn [snd] in Hout.
  destruct (read_frames _ _ _ _ _ _ _ _ _ _) as [[o hw]| |] eqn:Hrf;
    [|discriminate..].
  destruct (check_channels_read_ok filename (or_zero start) (or_zero end_)
              channels o) as [_ Hchk].
  destruct (check_channels_read _ _ _ _ _) as [u| |] eqn:Hc;
    [|discriminate..].
  injection Hout as <-.
  assert (Hinv : out_invariant channels o).
  { eapply read_frames_invariant; [|exact Hrf].
    split; [constructor|]. intros c [x Hx]. discriminate. }
  destruct Hinv as [Hnd Hkeys]. split; [exact Hnd|].
  intros c. split; [apply Hkeys | apply (Hchk u eq_refl)].
Qed.

Lemma read_gwf_keys_are_requested_witness :
  List.NoDup
    (map fst
       [("X1:TEST",
         SeriesObj {| value := [0; 1; 2; 3; 4; 5; 6; 7; 8; 9];
                      t0 := 100; dt := 1; name := "X1:TEST";
                      channel := "X1:TEST"; unit := Some "m" |})]).
Proof.
  refine (proj1 (read_gwf_keys_are_requested
                   series_append_spec span_contains_spec open_example
                   ∅ "full.gwf" ["X1:TEST"] (Some 100%Q) (Some 110%Q) None
                   _ _)).
  vm_compute. reflexivity.
Defined.



(** X16.  Once every accumulated series covers the request the loop
    stops, and the frames that follow are not read: whatever frames are
    put after those of a run that left the loop early, the result is the
    same. *)
Theorem read_frames_stops_when_covered
    (series_append : Series -> option Series -> error + Series)
    (span_contains : Q -> Q -> Series -> bool)
    (nframes : nat) (ctype : gmap string string) (channels : list string)
    (start end_ : Q) (frames more : list FrameH) (this : nat)
    (out out' : list (string * pyobj))
    (Hearly : read_frames series_append span_contains nframes ctype
                channels start end_ this frames out
              = Ok (out', EarlyExit)) :
  forall nframes' : nat,
    read_frames series_append span_contains nframes' ctype channels
                start end_ this (frames ++ more) out
    = Ok (out', EarlyExit).
Proof.
  intros nframes'. apply read_frames_early_exit_stable.
  revert this out Hearly.
  induction frames as [|f rest IH]; intros this out; cbn.
  - destruct (_ <=? _)%nat; discriminate.
  - destruct (negb _); [apply IH|].
    destruct (read_channels _ _ _ _ _ _ _ _) as [o| |e]; try discriminate.
    destruct (all_span_covered _ _ _ o) as [e|[|]]; try discriminate.
    + auto.
    + apply IH.
Qed.

Lemma read_frames_stops_when_covered_witness :
  read_frames series_append_spec span_contains_spec 7
    (<["X1:TEST" := "adc"]> ∅) ["X1:TEST"] 100 110 0
    ([frame_full] ++ [frame_half; frame_two]) []
  = Ok ([("X1:TEST",
          SeriesObj {| value := [0; 1; 2; 3; 4; 5; 6; 7; 8; 9];
                       t0 := 100; dt := 1; name := "X1:TEST";
                       channel := "X1:TEST"; unit := Some "m" |})],
        EarlyExit).
Proof.
  apply (read_frames_stops_when_covered
           series_append_spec span_contains_spec 1
           (<["X1:TEST" := "adc"]> ∅) ["X1:TEST"] 100 110
           [frame_full] [frame_half; frame_two] 0 []).
  vm_compute. reflexivity.
Defined.

(** X17.  When the file holds no frame that the request needs, no
    channel is read, and [read_gwf] fails for the first requested
    channel with the error of line 228, naming the channel, the file
    and, when the request is bounded, its span. *)
Theorem read_gwf_no_frame_in_request
    (series_append : Series -> option Series -> error + Series)
    (span_contains : Q -> Q -> Series -> bool)
    (open_gwf : string -> error + IFrameFStream)
    (h h' : heap) (filename : string) (c : string) (rest : list string)
    (start end_ : option Q) (ctype : option loc)
    (stream : IFrameFStream) (l : loc)
    (Hopen : open_gwf filename = inr stream)
    (Htypes : get_channel_types h stream (c :: rest) ctype = (h', Ok l))
    (Hcount : (stream_nframes stream <= length (stream_frames stream))%nat)
    (Hnone : Forall (fun f => _need_frame f (or_zero start) (or_zero end_)
                              = false)
                    (stream_frames stream)) :
  read_gwf series_append span_contains open_gwf
           h filename (c :: rest) start end_ ctype
  = (h', Raise (ValueError
                  (FailedToRead c filename
                     (if truthyQ (or_zero start) || truthyQ (or_zero end_)
                      then Some (or_zero start, or_zero end_)
                      else None)))).
Proof.
  unfold read_gwf, read_gwf_traced. rewrite Hopen, Htypes.
  rewrite (read_frames_none_needed series_append span_contains _ _ _ _ _ _
             Hnone) by lia.
  reflexivity.
Qed.

Lemma read_gwf_no_frame_in_request_witness :
  snd (read_gwf series_append_spec span_contains_spec open_example
                ∅ "full.gwf" ["X1:TEST"] (Some 200%Q) (Some 300%Q) None)
  = Raise (ValueError
             (FailedToRead "X1:TEST" "full.gwf" (Some (200%Q, 300%Q)))).
Proof.
  rewrite (read_gwf_no_frame_in_request
             series_append_spec span_contains_spec open_example
             ∅ (fst (get_channel_types ∅ stream_full ["X1:TEST"] None))
             "full.gwf" "X1:TEST" [] (Some 200%Q) (Some 300%Q) None
             stream_full (fresh (dom (∅ : heap)))).
  - reflexivity.
  - reflexivity.
  - vm_compute. reflexivity.
  - cbn. lia.
  - repeat constructor.
Defined.

(** ** The frame writer, continued *)

Section WriterFacts.
Variable crop : TimeSeries -> Q -> Q -> error + TimeSeries.
Variable known_detector : string -> bool.

Lemma time_set_single (times : list Q) (c : Q) :
  time_set times = [c] -> forall a, In a times -> (a == c)%Q.
Proof.
  intros Hc a Ha.
  destruct (time_set_complete times a Ha) as (c' & Hin & Heq).
  rewrite Hc in Hin. destruct Hin as [<-|[]]. exact Heq.
Qed.

Lemma given_or_common_ok (t : option Q) (times : list Q) (m : message)
    (c : Q) :
  given_or_common t times m = inr c ->
  (forall q, t = Some q -> truthyQ q = true -> c = q) /\
  (truthy_opt truthyQ t = false -> forall a, In a times -> (a == c)%Q).
Proof.
  unfold given_or_common. intros H.
  assert (Hcommon : match time_set times with
                    | [c0] => inr c0
                    | _ => inl (RuntimeError m)
                    end = inr c ->
                    forall a, In a times -> (a == c)%Q).
  { destruct (time_set times) as [|c0 [|c1 r]] eqn:E; try discriminate.
    intros [= <-]. apply time_set_single. exact E. }
  destruct t as [q|].
  - destruct (truthyQ q) eqn:Hq.
    + injection H as <-. split; [intros q' [= <-] _; reflexivity|].
      cbn. congruence.
    + split; [intros q' [= <-]; congruence|]. intros _. exact (Hcommon H).
  - split; [discriminate|]. intros _. exact (Hcommon H).
Qed.

Lemma given_or_common_error (t : option Q) (times : list Q) (m : message)
    (e : error) :
  given_or_common t times m = inl e -> e = RuntimeError m.
Proof.
  unfold given_or_common.
  destruct t as [q|]; [destruct (truthyQ q); [discriminate|]|];
    destruct (time_set times) as [|c [|c' r]]; congruence.
Qed.

(** The loop over the series appends one record per series, each built
    from the cropped series, its type and its position, until one
    fails. *)
Lemma write_channels_log (start end_ : Q)
    (items : list (string * TimeSeries)) :
  forall (i : Z) (log log' : list effect) (r : outcome Datatypes.unit),
    write_channels crop start end_ i items log = (log', r) ->
    exists recs : list FrDataOut,
      log' = (log ++ map AppendFrData recs)%list /\
      r <> Skip /\
      (r = Ok tt ->
       length recs = length items /\
       forall (j : nat) (kv : string * TimeSeries) (rec : FrDataOut),
         items !! j = Some kv -> recs !! j = Some rec ->
         exists cropped : TimeSeries,
           crop (snd kv) start end_ = inr cropped /\
           append_to_frame start cropped (channel_type_of (snd kv))
                           (i + Z.of_nat j)
           = inr rec).
Proof.
  induction items as [|[key ts] rest IH]; intros i log log' r; cbn.
  - intros [= <- <-]. exists []. cbn. rewrite app_nil_r.
    split; [reflexivity|]. split; [discriminate|]. intros _.
    split; [reflexivity|]. intros j kv rec Hj. destruct j; discriminate.
  - fold (channel_type_of ts).
    destruct (crop ts start end_) as [e|cropped] eqn:Hcrop.
    { intros [= <- <-]. exists []. cbn. rewrite app_nil_r.
      split; [reflexivity|]. split; discriminate. }
    destruct (append_to_frame start cropped (channel_type_of ts) i)
      as [e|frdata] eqn:Happ.
    { intros [= <- <-]. exists []. cbn. rewrite app_nil_r.
      split; [reflexivity|]. split; discriminate. }
    intros H. destruct (IH _ _ _ _ H) as (recs & -> & Hns & Hok).
    exists (frdata :: recs). cbn. rewrite <- app_assoc. cbn.
    split; [reflexivity|]. split; [exact Hns|].
    intros Hr. destruct (Hok Hr) as [Hlen Hrec].
    split; [cbn; lia|].
    intros j kv rec Hj Hjr. destruct j as [|j]; cbn in Hj, Hjr.
    + injection Hj as <-. injection Hjr as <-.
      exists cropped. cbn [snd]. rewrite Z.add_0_r. auto.
    + destruct (Hrec j kv rec Hj Hjr) as (cr & Hc & Ha).
      exists cr. split; [exact Hc|].
      rewrite <- Ha. f_equal. lia.
Qed.
End WriterFacts.

(** X18.  A call of [write] that returns has created one frame, from the
    start to the end, appended one record per series, in the order of
    the dict, each built from the series cropped to the frame's span,
    its type and its position in the dict, and then written the file,
    once, as its last action.  The start is the explicit one when it is
    given and otherwise the start every series has; likewise the end. *)
Theorem write_ok_log_shape
    (crop : TimeSeries -> Q -> Q -> error + TimeSeries)
    (known_detector : string -> bool)
    (tsdict : list (string * TimeSeries)) (outfile : string)
    (start end_ : option Q) (name_ : string)
    (run compression compression_level : Z)
    (log : list effect)
    (Hok : write crop known_detector tsdict outfile start end_ name_
                 run compression compression_level = (log, Ok tt)) :
  exists (st en : Q) (recs : list FrDataOut),
    log = (CreateFrame st (en - st)%Q name_ run
                       (ifos_of known_detector tsdict)
           :: map AppendFrData recs
           ++ [WriteFrames outfile compression compression_level])%list /\
    length recs = length tsdict /\
    (forall (j : nat) (kv : string * TimeSeries) (rec : FrDataOut),
       tsdict !! j = Some kv -> recs !! j = Some rec ->
       exists cropped : TimeSeries,
         crop (snd kv) st en = inr cropped /\
         append_to_frame st cropped (channel_type_of (snd kv))
                         (Z.of_nat j) = inr rec) /\
    (forall q, start = Some q -> truthyQ q = true -> st = q) /\
    (truthy_opt truthyQ start = false ->
     forall k ts, In (k, ts) tsdict -> (ts_x0 ts == st)%Q) /\
    (forall q, end_ = Some q -> truthyQ q = true -> en = q) /\
    (truthy_opt truthyQ end_ = false ->
     forall k ts, In (k, ts) tsdict -> (snd (ts_span ts) == en)%Q).
Proof.
  unfold write in Hok.
  destruct (given_or_common start _ DifferentStartTimes) as [e|st] eqn:Hst;
    [discriminate|].
  destruct (given_or_common end_ _ DifferentEndTimes) as [e|en] eqn:Hen;
    [discriminate|].
  destruct (write_channels crop st en 0 tsdict _) as [log' r] eqn:Hwc.
  destruct (write_channels_log crop st en tsdict _ _ _ _ Hwc)
    as (recs & -> & _ & Hrecs).
  destruct r as [[]| |e]; [|discriminate..].
  injection Hok as <-.
  destruct (Hrecs eq_refl) as [Hlen Hrec].
  destruct (given_or_common_ok _ _ _ _ Hst) as [Hs1 Hs2].
  destruct (given_or_common_ok _ _ _ _ Hen) as [He1 He2].
  exists st, en, recs. split; [reflexivity|]. split; [exact Hlen|].
  split; [exact Hrec|]. split; [exact Hs1|]. split.
  - intros Hf k ts Hin. apply (Hs2 Hf).
    exact (in_map (fun kv : string * TimeSeries => ts_x0 (snd kv)) _ _ Hin).
  - split; [exact He1|].
    intros Hf k ts Hin. apply (He2 Hf).
    exact (in_map (fun kv : string * TimeSeries => snd (ts_span (snd kv)))
                  _ _ Hin).
Qed.

Lemma write_ok_log_shape_witness :
  exists (st en : Q) (recs : list FrDataOut),
    fst (write (fun ts _ _ => inr ts) (fun _ => true)
               [("a", ts_from 100); ("b", ts_from 100)] "out.gwf"
               None None "gwpy" 0 257 6)
    = (CreateFrame st (en - st)%Q "gwpy" 0
                   (ifos_of (fun _ => true)
                            [("a", ts_from 100); ("b", ts_from 100)])
       :: map AppendFrData recs ++ [WriteFrames "out.gwf" 257 6])%list /\
    length recs = 2%nat.
Proof.
  destruct (write_ok_log_shape
              (fun ts _ _ => inr ts) (fun _ => true)
              [("a", ts_from 100); ("b", ts_from 100)] "out.gwf"
              None None "gwpy" 0 257 6
              (fst (write (fun ts _ _ => inr ts) (fun _ => true)
                          [("a", ts_from 100); ("b", ts_from 100)] "out.gwf"
                          None None "gwpy" 0 257 6)))
    as (st & en & recs & H1 & H2 & _).
  - vm_compute. reflexivity.
  - exists st, en, recs. split; [exact H1 | exact H2].
Defined.

(** X19.  A call of [write] that does not return raises an error, never
    the skip signal, and has written no file: whatever fails, the span
    checks, the cropping, the type of a channel or the element type of a
    series, nothing is serialized. *)
Theorem write_failure_writes_nothing
    (crop : TimeSeries -> Q -> Q -> error + TimeSeries)
    (known_detector : string -> bool)
    (tsdict : list (string * TimeSeries)) (outfile : string)
    (start end_ : option Q) (name_ : string)
    (run compression compression_level : Z)
    (log : list effect) (r : outcome Datatypes.unit)
    (Hw : write crop known_detector tsdict outfile start end_ name_
                run compression compression_level = (log, r))
    (Hfail : r <> Ok tt) :
  (exists e : error, r = Raise e) /\
  forall (o : string) (c l : Z), ~ In (WriteFrames o c l) log.
Proof.
  unfold write in Hw.
  destruct (given_or_common start _ DifferentStartTimes) as [e|st] eqn:Hst.
  { injection Hw as <- <-. split; [eauto | intros o c l []]. }
  destruct (given_or_common end_ _ DifferentEndTimes) as [e|en] eqn:Hen.
  { injection Hw as <- <-. split; [eauto | intros o c l []]. }
  destruct (write_channels crop st en 0 tsdict _) as [log' r'] eqn:Hwc.
  destruct (write_channels_log crop st en tsdict _ _ _ _ Hwc)
    as (recs & -> & Hns & _).
  destruct r' as [[]| |e].
  - injection Hw as <- <-. congruence.
  - congruence.
  - injection Hw as <- <-. split; [eauto|].
    intros o c l [Hin|Hin]; [discriminate|].
    apply in_map_iff in Hin as (x & Hx & _). discriminate.
Qed.

Lemma write_failure_writes_nothing_witness :
  exists e : error,
    Raise (RuntimeError DifferentStartTimes)
    = (Raise e : outcome Datatypes.unit).
Proof.
  refine (proj1 (write_failure_writes_nothing
                   (fun ts _ _ => inr ts) (fun _ => true)
                   [("a", ts_from 100); ("b", ts_from 105)] "out.gwf"
                   None None "gwpy" 0 257 6 []
                   (Raise (RuntimeError DifferentStartTimes)) _ _)).
  - vm_compute. reflexivity.
  - discriminate.
Defined.

(** X20.  Writing an empty dict: with no start given the call fails on
    the start times, there being not exactly one; with a start and no
    end it fails on the end times; with both given it creates an empty
    frame and writes it. *)
Theorem write_empty_dict
    (crop : TimeSeries -> Q -> Q -> error + TimeSeries)
    (known_detector : string -> bool) (outfile : string)
    (start end_ : option Q) (name_ : string)
    (run compression compression_level : Z) :
  (truthy_opt truthyQ start = false ->
   write crop known_detector [] outfile start end_ name_
         run compression compression_level
   = ([], Raise (RuntimeError DifferentStartTimes)))
  /\ (forall st : Q,
        start = Some st -> truthyQ st = true ->
        truthy_opt truthyQ end_ = false ->
        write crop known_detector [] outfile start end_ name_
              run compression compression_level
        = ([], Raise (RuntimeError DifferentEndTimes)))
  /\ (forall st en : Q,
        start = Some st -> truthyQ st = true ->
        end_ = Some en -> truthyQ en = true ->
        write crop known_detector [] outfile start end_ name_
              run compression compression_level
        = ([CreateFrame st (en - st)%Q name_ run [];
            WriteFrames outfile compression compression_level], Ok tt)).
Proof.
  assert (Hfalsy : forall (t : option Q) (m : message),
            truthy_opt truthyQ t = false ->
            given_or_common t [] m = inl (RuntimeError m)).
  { intros t m Ht. unfold given_or_common.
    destruct t as [q|]; [|reflexivity]. cbn in Ht. rewrite Ht. reflexivity. }
  assert (Hgiven : forall (q : Q) (m : message),
            truthyQ q = true -> given_or_common (Some q) [] m = inr q).
  { intros q m Hq. unfold given_or_common. rewrite Hq. reflexivity. }
  split; [|split].
  - intros Hs. unfold write. cbn [map]. rewrite (Hfalsy _ _ Hs). reflexivity.
  - intros st -> Hst He. unfold write. cbn [map].
    rewrite (Hgiven _ _ Hst), (Hfalsy _ _ He). reflexivity.
  - intros st en -> Hst -> Hen. unfold write. cbn [map].
    rewrite (Hgiven _ _ Hst), (Hgiven _ _ Hen). reflexivity.
Qed.

Lemma write_empty_dict_witness :
  write (fun ts _ _ => inr ts) (fun _ => true) [] "out.gwf"
        (Some 100%Q) None "gwpy" 0 257 6
  = ([], Raise (RuntimeError DifferentEndTimes)).
Proof.
  apply (proj1 (proj2 (write_empty_dict
                         (fun ts _ _ => inr ts) (fun _ => true) "out.gwf"
                         (Some 100%Q) None "gwpy" 0 257 6)) 100%Q);
    reflexivity.
Defined.

Lemma tag_for_supported (t : numpy_type) :
  match tag_for t with
  | Some g => native_type_for g = Some t /\ In t supported_element_types
  | None => ~ In t supported_element_types
  end.
Proof.
  destruct t; vm_compute; try (split; [reflexivity | tauto]);
    intuition discriminate.
Qed.

(** What [create_frvect] builds, and when it fails. *)
Lemma create_frvect_cases (timeseries : TimeSeries) :
  match create_frvect timeseries with
  | inr vect =>
      In (ts_dtype timeseries) supported_element_types /\
      native_type_for (out_type vect) = Some (ts_dtype timeseries) /\
      out_data vect = ts_value timeseries /\
      out_nx vect = length (ts_value timeseries) /\
      out_dx vect = ts_dx timeseries /\
      out_startX vect = 0%Q /\
      out_ndim vect = 1%Z
  | inl e =>
      e = KeyError /\ ~ In (ts_dtype timeseries) supported_element_types
  end.
Proof.
  unfold create_frvect.
  pose proof (tag_for_supported (ts_dtype timeseries)) as H.
  destruct (tag_for (ts_dtype timeseries)) as [g|].
  - destruct H as [H1 H2]. cbn. repeat split; assumption.
  - split; [reflexivity | exact H].
Qed.

(** X21.  [create_frvect] succeeds exactly for the supported element
    types.  The vector it builds has the tag whose native type is the
    series' element type, one dimension that starts at 0 with the
    series' spacing and as many points as the series has samples, and
    the series' samples; for any other element type the table lookup
    fails with [KeyError]. *)
Theorem create_frvect_round_trip (timeseries : TimeSeries) :
  match create_frvect timeseries with
  | inr vect =>
      In (ts_dtype timeseries) supported_element_types /\
      native_type_for (out_type vect) = Some (ts_dtype timeseries) /\
      out_data vect = ts_value timeseries /\
      out_nx vect = length (ts_value timeseries) /\
      out_dx vect = ts_dx timeseries /\
      out_startX vect = 0%Q /\
      out_ndim vect = 1%Z
  | inl e =>
      e = KeyError /\ ~ In (ts_dtype timeseries) supported_element_types
  end.
Proof.
  exact (create_frvect_cases timeseries).
Qed.

Lemma valid_channel_type_cases (type : string) :
  valid_channel_type type = true ->
  lower type = "adc" \/ lower type = "proc" \/ lower type = "sim".
Proof.
  unfold valid_channel_type. rewrite !orb_true_iff, !String.eqb_eq. tauto.
Qed.

(** X22.  [append_to_frame] builds a record exactly when the type string
    is a spelling of [adc], [proc] or [sim] and the element type is
    supported.  A bad type string is reported first, with the error of
    line 536; a good one with an unsupported element type fails with the
    [KeyError] of the table lookup. *)
Theorem append_to_frame_succeeds_iff
    (epoch : Q) (timeseries : TimeSeries) (type : string) (channelid : Z) :
  match append_to_frame epoch timeseries type channelid with
  | inr _ =>
      valid_channel_type type = true /\
      In (ts_dtype timeseries) supported_element_types
  | inl e =>
      (valid_channel_type type = false /\
       e = RuntimeError (InvalidChannelType type)) \/
      (valid_channel_type type = true /\
       ~ In (ts_dtype timeseries) supported_element_types /\
       e = KeyError)
  end.
Proof.
  unfold append_to_frame, valid_channel_type.
  pose proof (create_frvect_cases timeseries) as Hv.
  destruct (String.eqb (lower type) "adc");
    [|destruct (String.eqb (lower type) "proc");
      [|destruct (String.eqb (lower type) "sim")]];
    cbn [orb];
    try (destruct (create_frvect timeseries) as [e|v];
         [right; destruct Hv as [-> Hn]; auto
         |split; [reflexivity | apply Hv]]).
  left. split; reflexivity.
Qed.

(** X23.  What is written can be read back.  A processed or simulated
    channel record that [append_to_frame] builds for a series, handed
    back by the frame library with the fields it was built with and
    decoded by [read_frdata] at the frame's start with no bounds, gives
    the series' samples at the series' start time and spacing, when the
    series is not empty, starts at or after time 0 and is named, if at
    all, as the channel that is asked for. *)
Theorem write_read_round_trip
    (series_append : Series -> option Series -> error + Series)
    (epoch : Q) (timeseries : TimeSeries) (type : string) (channelid : Z)
    (rec : FrDataOut) (frdata : FrData) (chan : string)
    (Hrec : append_to_frame epoch timeseries type channelid = inr rec)
    (Hback : frdata_of_out rec = Some frdata)
    (Hdx : (0 < ts_dx timeseries)%Q)
    (Hdata : ts_value timeseries <> [])
    (Hpos : (0 <= ts_x0 timeseries)%Q)
    (Hname : ts_name timeseries = None \/
             ts_name timeseries = Some "" \/
             ts_name timeseries = Some chan) :
  exists s : Series,
    read_frdata series_append epoch 0 0 (Some chan) frdata = Ok (Some s) /\
    value s = ts_value timeseries /\
    (t0 s == ts_x0 timeseries)%Q /\
    dt s = ts_dx timeseries.
Proof.
  pose proof (create_frvect_cases timeseries) as Hv.
  unfold append_to_frame in Hrec.
  set (tr := Qabs _) in Hrec.
  assert (Htr : (0 <= tr)%Q) by apply Qabs_nonneg.
  clearbody tr.
  destruct (create_frvect timeseries) as [e|v] eqn:Hcv.
  { destruct (String.eqb (lower type) "adc");
      [|destruct (String.eqb (lower type) "proc");
        [|destruct (String.eqb (lower type) "sim")]]; discriminate. }
  destruct Hv as (_ & _ & Hvd & _ & Hvdx & Hvx & _).
  assert (Hvn : name_mismatch (frvect_of_out v) (Some chan) = false).
  { unfold name_mismatch, frvect_of_out. cbn [vect_name truthy_opt].
    unfold create_frvect in Hcv.
    destruct (tag_for (ts_dtype timeseries)); [|discriminate].
    injection Hcv as <-. cbn [out_name].
    destruct Hname as [->|[->| ->]]; cbn [truthy_str]; try reflexivity.
    rewrite bool_decide_true by reflexivity.
    cbn. apply andb_false_r. }
  assert (Hread : forall offset : Q,
            (epoch + offset == ts_x0 timeseries)%Q ->
            exists s : Series,
              read_frvect (frvect_of_out v) (epoch + offset)%Q 0 0
                          (Some chan) = Ok s /\
              value s = ts_value timeseries /\
              (t0 s == ts_x0 timeseries)%Q /\
              dt s = ts_dx timeseries).
  { intros offset Hoff.
    destruct (read_frvect_whole (frvect_of_out v) (epoch + offset)%Q 0 0
                (Some chan)) as (s & Hs & Hsv & Hst & Hsd).
    - cbn [frvect_of_out vect_dx]. rewrite Hvdx. exact Hdx.
    - exact Hvn.
    - cbn [frvect_of_out vect_data]. rewrite Hvd. exact Hdata.
    - unfold dimstart. cbn [frvect_of_out vect_startX]. rewrite Hvx, Hoff.
      lra.
    - left. reflexivity.
    - exists s. split; [exact Hs|].
      cbn [frvect_of_out vect_data vect_dx] in Hsv, Hsd.
      rewrite Hsv, Hsd, Hvd, Hvdx. split; [reflexivity|].
      split; [|reflexivity].
      rewrite Hst. unfold dimstart. cbn [frvect_of_out vect_startX].
      rewrite Hvx, Hoff. lra. }
  assert (Hoff : (epoch + (ts_x0 timeseries - epoch) == ts_x0 timeseries)%Q)
    by ring.
  destruct (Hread _ Hoff) as (s & Hs & Hrest).
  exists s. split; [|exact Hrest].
  destruct (String.eqb (lower type) "adc").
  { injection Hrec as <-. discriminate. }
  destruct (String.eqb (lower type) "proc").
  - injection Hrec as <-. cbn [frdata_of_out] in Hback.
    injection Hback as <-.
    unfold read_frdata. cbn [frdata_timeOffset frdata_tRange frdata_data].
    change (truthyQ 0) with false. cbn [andb orb].
    assert (Hle : Qle_bool 0 (epoch + (ts_x0 timeseries - epoch) + tr)%Q
                  = true).
    { apply Qle_bool_iff. lra. }
    rewrite Hle. cbn [negb]. rewrite andb_false_r.
    cbn [read_frdata_vectors]. rewrite Hs. reflexivity.
  - destruct (String.eqb (lower type) "sim"); [|discriminate].
    injection Hrec as <-. cbn [frdata_of_out] in Hback.
    injection Hback as <-.
    unfold read_frdata. cbn [frdata_timeOffset frdata_tRange frdata_data].
    change (truthyQ 0) with false. cbn [andb orb].
    cbn [read_frdata_vectors]. rewrite Hs. reflexivity.
Qed.

Lemma write_read_round_trip_witness :
  exists s : Series,
    value s = [1; 2; 3; 4; 5] /\ (t0 s == 100)%Q.
Proof.
  destruct (append_to_frame 100 (ts_from 100) "proc" 0) as [e|rec] eqn:Hrec;
    [vm_compute in Hrec; discriminate|].
  destruct (frdata_of_out rec) as [frdata|] eqn:Hback;
    [|vm_compute in Hrec; injection Hrec as <-; discriminate].
  destruct (write_read_round_trip series_append_spec 100 (ts_from 100)
              "proc" 0 rec frdata "X1:TEST" Hrec Hback)
    as (s & _ & Hv & Ht & _).
  - reflexivity.
  - discriminate.
  - vm_compute. discriminate.
  - right. right. reflexivity.
  - exists s. split; [exact Hv | exact Ht].
Defined.

(** ** The multi-file reader *)

Section MultiFile.
Variable series_append : Series -> option Series -> error + Series.
Variable span_contains : Q -> Q -> Series -> bool.
Variable open_gwf : string -> error + IFrameFStream.
Variable dict_append :
  list (string * pyobj) -> list (string * pyobj)
  -> error + list (string * pyobj).

Lemma read_files_not_skip (channels : list string) (start end_ : option Q)
    (ctype : option loc) (source : list string) :
  forall h i out,
    snd (read_files series_append span_contains open_gwf dict_append
                    h i source channels start end_ ctype out) <> Skip.
Proof.
  induction source as [|f rest IH]; intros h i out; cbn; [discriminate|].
  pose proof (read_gwf_not_skip series_append span_contains open_gwf
                h f channels start end_ ctype) as Hns.
  destruct (read_gwf _ _ _ _ _ _ _ _ _) as [h' [new| |e]];
    cbn [snd] in *; [|congruence|discriminate].
  destruct (dict_append _ new); [discriminate | apply IH].
Qed.

Lemma read_files_failure_final (channels : list string)
    (start end_ : option Q) (ctype : option loc)
    (source more : list string) :
  forall h i out h' e,
    read_files series_append span_contains open_gwf dict_append
               h i source channels start end_ ctype out = (h', Raise e) ->
    read_files series_append span_contains open_gwf dict_append
               h i (source ++ more) channels start end_ ctype out
    = (h', Raise e).
Proof.
  induction source as [|f rest IH]; intros h i out h' e; cbn;
    [discriminate|].
  destruct (read_gwf _ _ _ _ _ _ _ _ _) as [h1 [new| |e1]]; auto.
  destruct (dict_append _ new); auto.
Qed.
End MultiFile.

(** X24.  The skip signal never leaves [read]: over any list of files
    the call returns a dict or raises another error. *)
Theorem read_never_skips
    (series_append : Series -> option Series -> error + Series)
    (span_contains : Q -> Q -> Series -> bool)
    (open_gwf : string -> error + IFrameFStream)
    (dict_append : list (string * pyobj) -> list (string * pyobj)
                   -> error + list (string * pyobj))
    (h : heap) (source channels : list string)
    (start end_ : option Q) (ctype : option loc) :
  snd (read series_append span_contains open_gwf dict_append
            h source channels start end_ ctype) <> Skip.
Proof. apply read_files_not_skip. Qed.

(** X25.  [read] stops at the first file that fails: when reading a list
    of files raises an error, reading that list followed by any further
    files raises the same error and leaves the same types behind; the
    further files are not opened. *)
Theorem read_fails_fast
    (series_append : Series -> option Series -> error + Series)
    (span_contains : Q -> Q -> Series -> bool)
    (open_gwf : string -> error + IFrameFStream)
    (dict_append : list (string * pyobj) -> list (string * pyobj)
                   -> error + list (string * pyobj))
    (h h' : heap) (source more channels : list string)
    (start end_ : option Q) (ctype : option loc) (e : error)
    (Hfail : read series_append span_contains open_gwf dict_append
                  h source channels start end_ ctype = (h', Raise e)) :
  read series_append span_contains open_gwf dict_append
       h (source ++ more) channels start end_ ctype = (h', Raise e).
Proof. apply read_files_failure_final. exact Hfail. Qed.

Lemma read_fails_fast_witness :
  snd (read series_append_spec span_contains_spec open_example
            (fun out new => inr (out ++ new)%list)
            ∅ (["half.gwf"] ++ ["full.gwf"]) ["X1:TEST"]
            (Some 105%Q) (Some 120%Q) None)
  = Raise AttributeError.
Proof.
  rewrite (read_fails_fast series_append_spec span_contains_spec
             open_example (fun out new => inr (out ++ new)%list)
             ∅ (fst (read series_append_spec span_contains_spec
                          open_example (fun out new => inr (out ++ new)%list)
                          ∅ ["half.gwf"] ["X1:TEST"]
                          (Some 105%Q) (Some 120%Q) None))
             ["half.gwf"] ["full.gwf"] ["X1:TEST"]
             (Some 105%Q) (Some 120%Q) None AttributeError).
  - reflexivity.
  - vm_compute. reflexivity.
Defined.

(** ** The early exit on an empty dict *)

Lemma read_channels_all_skipped
    (series_append : Series -> option Series -> error + Series)
    (frame : FrameH) (ctype : gmap string string) (epoch start end_ : Q)
    (channels : list string) (out : list (string * pyobj)) :
  (forall c, c ∈ channels ->
     exists t, ctype !! c = Some t /\
               _read_channel series_append frame c t epoch start end_
               = Skip) ->
  read_channels series_append frame ctype epoch start end_ channels out
  = Ok out.
Proof.
  induction channels as [|c rest IH]; intros Hall; [reflexivity|].
  cbn [read_channels].
  destruct (Hall c) as (t & -> & ->); [left|].
  apply IH. intros x Hx. apply Hall. right. exact Hx.
Qed.

(** X26.  The test of line 218 holds of an empty dict.  So when every
    requested channel is skipped in the first frame that the request
    needs, the loop is left at once with nothing read, the frames that
    follow are not looked at, and the check after the loop fails for the
    first requested channel. *)
Theorem read_frames_leaves_on_empty_dict
    (series_append : Series -> option Series -> error + Series)
    (span_contains : Q -> Q -> Series -> bool)
    (nframes : nat) (ctype : gmap string string)
    (c : string) (others : list string) (start end_ : Q) (this : nat)
    (frame : FrameH) (rest : list FrameH) (filename : string)
    (Hneed : _need_frame frame start end_ = true)
    (Hskip : forall x : string,
        x ∈ c :: others ->
        exists t : string,
          ctype !! x = Some t /\
          _read_channel series_append frame x t (frame_GTime frame)
                        start end_ = Skip) :
  read_frames series_append span_contains nframes ctype (c :: others)
              start end_ this (frame :: rest) []
  = Ok ([], EarlyExit)
  /\ check_channels_read filename start end_ (c :: others) []
     = Raise (ValueError
                (FailedToRead c filename
                   (if truthyQ start || truthyQ end_
                    then Some (start, end_) else None))).
Proof.
  split; [|reflexivity].
  cbn [read_frames]. rewrite Hneed. cbn [negb].
  rewrite (read_channels_all_skipped series_append frame ctype
             (frame_GTime frame) start end_ (c :: others) [] Hskip).
  reflexivity.
Qed.

Lemma read_frames_leaves_on_empty_dict_witness :
  read_frames series_append_spec span_contains_spec 2
    (<["X1:AUX" := "proc"]> ∅) ["X1:AUX"] 100 110 0
    [frame_two; frame_full] []
  = Ok ([], EarlyExit).
Proof.
  refine (proj1 (read_frames_leaves_on_empty_dict
                   series_append_spec span_contains_spec 2
                   (<["X1:AUX" := "proc"]> ∅) "X1:AUX" [] 100 110 0
                   frame_two [frame_full] "two.gwf" _ _)).
  - reflexivity.
  - intros x Hx. apply list_elem_of_singleton in Hx as ->.
    exists "proc". split; [reflexivity | vm_compute; reflexivity].
Defined.
